(** * The reporting backend: a token-caching, authenticating proxy handler

    A shallow embedding of [backend/src/index.ts].  The handler is an async
    function over three pieces of ambient state: the module-level
    [cachedToken] slot, the wall clock read by [Date.now()], and the upstream
    API reached through [fetch].  They are threaded here as an explicit
    [World]; a thrown JavaScript error is the left summand of the result.

    One invocation is followed from its start to its end; what other
    invocations do to the slot while this one awaits the network is not part
    of the model. *)

From Stdlib Require Import ZArith Ascii String.
From stdpp Require Import base strings gmap list pretty.

Local Open Scope string_scope.
Local Open Scope list_scope.
Local Open Scope Z_scope.

(** ** JavaScript values and string primitives *)

Module Js.

#[local] Set Warnings "-register-all".

(** Values as they come out of [JSON.parse], plus [undefined].  Numbers are
    the integer-valued ones: HTTP status codes and millisecond timestamps
    are all the arithmetic the handler does. *)
Inductive value :=
| VUndefined
| VNull
| VBool (b : bool)
| VNum (n : Z)
| VStr (s : string)
| VArr (items : list value)
| VObj (fields : list (string * value)).

(** ToBoolean, as used by [!token] and [!req.body]. *)
Definition truthy (v : value) : bool :=
  match v with
  | VUndefined | VNull => false
  | VBool b => b
  | VNum n => negb (n =? 0)
  | VStr s => negb (String.eqb s "")
  | VArr _ | VObj _ => true
  end.

Fixpoint assoc (k : string) (fields : list (string * value)) : option value :=
  match fields with
  | [] => None
  | (k', v) :: rest => if String.eqb k k' then Some v else assoc k rest
  end.

(** [v?.k] for a key that no prototype defines ([data], [patient],
    [currentToken]): an own property of an object, [undefined] on
    everything else, [null] and [undefined] included. *)
Definition get (k : string) (v : value) : value :=
  match v with
  | VObj fields => default VUndefined (assoc k fields)
  | _ => VUndefined
  end.

(** [s.slice(n)] for [0 <= n]. *)
Fixpoint slice (n : nat) (s : string) : string :=
  match n, s with
  | O, _ => s
  | S n', String _ rest => slice n' rest
  | S _, EmptyString => EmptyString
  end.

(** [s.split(sep)] for a one-character separator: never empty, one more
    segment than there are separators. *)
Fixpoint split (sep : ascii) (s : string) : list string :=
  match s with
  | EmptyString => [EmptyString]
  | String c rest =>
      if Ascii.eqb c sep then EmptyString :: split sep rest
      else match split sep rest with
           | seg :: segs => String c seg :: segs
           | [] => [String c EmptyString]
           end
  end.

(** [parts.join(sep)] *)
Fixpoint join (sep : string) (parts : list string) : string :=
  match parts with
  | [] => ""
  | [p] => p
  | p :: rest => p +:+ sep +:+ join sep rest
  end.

(** Does the character occur in the string? *)
Fixpoint occurs (c : ascii) (s : string) : bool :=
  match s with
  | EmptyString => false
  | String c' rest => Ascii.eqb c' c || occurs c rest
  end.

(** An [Error] object with the two properties the handler attaches through
    [Object.assign]; [None] is a property that was never set. *)
Record error := Error {
  message : string;
  status : option Z;
  details : option value
}.

End Js.
Import Js.

Definition colon : ascii := ":"%char.
Definition dquote : string := String "034"%char EmptyString.

(** ** Configuration *)

Definition CURASEV_BASE_URL : string := "https://api.curasev.com".
Definition AUTH_ENDPOINT : string := "/api/v1/user/authenticate".

Record Env := {
  CURASEV_USERNAME : string;
  CURASEV_PASSWORD : string;
  CURASEV_CLIENT_KEY : string;
  BASIC_AUTH_USER : string;
  BASIC_AUTH_PASS : string
}.

(** The keys of the [REQUIRED_ENV] schema, in the order the object schema
    visits them. *)
Definition REQUIRED_KEYS : list string :=
  ["CURASEV_USERNAME"; "CURASEV_PASSWORD"; "CURASEV_CLIENT_KEY";
   "BASIC_AUTH_USER"; "BASIC_AUTH_PASS"].

(** [z.string().min(1)] on one variable of [process.env]. *)
Definition min1 (penv : gmap string string) (key : string) : option string :=
  match penv !! key with
  | Some v => if String.eqb v "" then None else Some v
  | None => None
  end.

(** [REQUIRED_ENV.safeParse(process.env)]: the parsed record, or the paths of
    the issues, one per failing key. *)
Definition safeParse (penv : gmap string string) : list string + Env :=
  match min1 penv "CURASEV_USERNAME", min1 penv "CURASEV_PASSWORD",
        min1 penv "CURASEV_CLIENT_KEY", min1 penv "BASIC_AUTH_USER",
        min1 penv "BASIC_AUTH_PASS" with
  | Some u, Some p, Some k, Some bu, Some bp =>
      inr {| CURASEV_USERNAME := u; CURASEV_PASSWORD := p;
             CURASEV_CLIENT_KEY := k; BASIC_AUTH_USER := bu;
             BASIC_AUTH_PASS := bp |}
  | _, _, _, _, _ =>
      inl (List.filter (fun key => negb (bool_decide (is_Some (min1 penv key))))
                       REQUIRED_KEYS)
  end.

Definition getEnv (penv : gmap string string) : error + Env :=
  match safeParse penv with
  | inr env => inr env
  | inl paths =>
      inl (Error "Missing environment variables" (Some 500)
                 (Some (VStr (join ", " paths))))
  end.

Definition TOKEN_TTL_MS : Z := 1000 * 60 * 25.

(** ** The platform

    What the handler calls but does not define: Node's [Buffer], [URL] and
    [JSON], string conversion in template literals, and the upstream API at
    the other end of [fetch].  Everything below holds for every platform. *)

Record URL := { pathname : string; search : string }.

Record RequestInit := {
  init_method : string;
  init_headers : list (string * string);
  init_body : option string
}.

(** One call of [fetch(url, init)]. *)
Record Outbound := { out_url : string; out_init : RequestInit }.

(** A node-fetch [Response]: [status], [headers.get('content-type')] and the
    text of the body. *)
Record Response := {
  resp_status : Z;
  resp_content_type : option string;
  resp_text : string
}.

(** [response.ok] *)
Definition ok (r : Response) : bool :=
  (200 <=? resp_status r) && (resp_status r <? 300).

(** One completed [fetch]: the call and how its promise settled. *)
Record Exchange := { ex_call : Outbound; ex_settled : error + Response }.

Class Platform := {
  (** [Buffer.from(s, 'base64').toString('utf8')]; it never throws. *)
  base64_utf8 : string -> string;
  (** [new URL(input, base)], a [TypeError] when the input does not parse. *)
  new_URL : string -> string -> error + URL;
  JSON_stringify : value -> string;
  (** [JSON.parse] behind [response.json()], which throws on other text. *)
  JSON_parse : string -> error + value;
  (** ToString of a value that is not a string. *)
  to_string : value -> string;
  (** The upstream: given the exchanges so far, the call to answer and the
      time it is issued, the settled promise (rejected, or fulfilled with a
      response) and the time it settles. *)
  upstream : list Exchange -> Outbound -> Z -> (error + Response) * Z
}.

(** ** State and effects *)

Record Cached := { token : value; fetchedAt : Z }.

Record World := {
  cachedToken : option Cached;   (* the module-level [let cachedToken] *)
  clock : Z;                     (* what [Date.now()] reads; it moves while
                                    a [fetch] is awaited *)
  exchanges : list Exchange      (* calls of [fetch] so far, oldest first *)
}.

(** A computation that may throw and may change the world. *)
Definition M (A : Type) : Type := World -> (error + A) * World.

Definition ret {A} (a : A) : M A := fun w => (inr a, w).
Definition throw {A} (e : error) : M A := fun w => (inl e, w).
Definition bind {A B} (m : M A) (k : A -> M B) : M B :=
  fun w => match m w with
           | (inr a, w') => k a w'
           | (inl e, w') => (inl e, w')
           end.
(** A synchronous call that returns or throws. *)
Definition lift {A} (r : error + A) : M A := fun w => (r, w).

Notation "x <- m ;; k" := (bind m (fun x => k))
  (at level 100, m at next level, right associativity).

Definition Date_now : M Z := fun w => (inr (clock w), w).
Definition read_cachedToken : M (option Cached) := fun w => (inr (cachedToken w), w).
Definition write_cachedToken (c : Cached) : M unit :=
  fun w => (inr tt, {| cachedToken := Some c; clock := clock w;
                       exchanges := exchanges w |}).

Section Backend.
Context {P : Platform}.

Definition fetch (url : string) (init : RequestInit) : M Response :=
  fun w =>
    let call := {| out_url := url; out_init := init |} in
    let '(settled, t) := upstream (exchanges w) call (clock w) in
    (settled,
     {| cachedToken := cachedToken w;
        clock := t;
        exchanges := exchanges w ++ [{| ex_call := call; ex_settled := settled |}] |}).

(** [`${v}`] *)
Definition interpolate (v : value) : string :=
  match v with VStr s => s | _ => to_string v end.

(** ** The handler's functions *)

Record Request := {
  req_url : option string;
  req_host : option string;            (* [req.headers.host] *)
  req_authorization : option string;   (* [req.headers.authorization] *)
  req_method : string;
  req_body : value
}.

Definition unauthorized : error := Error "Unauthorized" (Some 401) None.

Definition assertBasicAuth (req : Request) (env : Env) : error + unit :=
  match req_authorization req with
  | None => inl unauthorized
  | Some header =>
      if negb (String.prefix "Basic " header) then inl unauthorized
      else
        let decoded := base64_utf8 (slice (String.length "Basic ") header) in
        let parts := split colon decoded in
        let user := parts !! 0%nat in
        let pass := parts !! 1%nat in
        if negb (bool_decide (user = Some (BASIC_AUTH_USER env)))
           || negb (bool_decide (pass = Some (BASIC_AUTH_PASS env)))
        then inl unauthorized
        else inr tt
  end.

(** The error [fetchCurasev] throws on a response that is not [ok]. *)
Definition api_error (response : Response) : error :=
  Error ("Curasev API error: " +:+ pretty (resp_status response))
        (Some (resp_status response))
        (Some (VStr (resp_text response))).

Definition fetchCurasev (path : string) (init : RequestInit) : M Response :=
  response <- fetch (CURASEV_BASE_URL +:+ path) init ;;
  if negb (ok response) then throw (api_error response)
  else ret response.

Definition auth_init (env : Env) : RequestInit :=
  {| init_method := "POST";
     init_headers := [("Content-Type", "application/json")];
     init_body := Some (JSON_stringify
                          (VObj [("p1", VStr (CURASEV_USERNAME env));
                                 ("p2", VStr (CURASEV_PASSWORD env))])) |}.

Definition missing_token (json : value) : error :=
  Error "Curasev authentication failed: missing token" (Some 502) (Some json).

(** [json?.data?.patient?.currentToken] *)
Definition currentToken (json : value) : value :=
  get "currentToken" (get "patient" (get "data" json)).

(** The body of [getToken] below its early return: authenticate upstream,
    extract the token, store it. *)
Definition getToken_miss (env : Env) : M value :=
  response <- fetchCurasev AUTH_ENDPOINT (auth_init env) ;;
  json <- lift (JSON_parse (resp_text response)) ;;
  let tok := currentToken json in
  if negb (truthy tok) then throw (missing_token json) else
  now <- Date_now ;;
  _ <- write_cachedToken {| token := tok; fetchedAt := now |} ;;
  ret tok.

Definition getToken (env : Env) : M value :=
  cached <- read_cachedToken ;;
  match cached with
  | Some c =>
      now <- Date_now ;;
      if now - fetchedAt c <? TOKEN_TTL_MS then ret (token c)
      else getToken_miss env
  | None => getToken_miss env
  end.

(** What a handler writes on [res]: the status, the headers it sets itself
    and the body, given to [send] as text or to [json] as a value. *)
Inductive Payload :=
| SendText (text : string)
| SendJson (v : value).

Record Reply := {
  res_status : Z;
  res_headers : list (string * string);
  res_body : Payload
}.

Definition request_URL (req : Request) : error + URL :=
  new_URL (default "" (req_url req))
          ("https://" +:+ default "localhost" (req_host req)).

Definition buildSearch (req : Request) : error + string :=
  match request_URL req with
  | inr url => inr (search url)
  | inl e => inl e
  end.

Definition getForwardBody (req : Request) : option string :=
  if String.eqb (req_method req) "GET" || String.eqb (req_method req) "HEAD"
  then None
  else match req_body req with
       | VStr s => Some s
       | body => if negb (truthy body) then None
                 else Some (JSON_stringify body)
       end.

Definition proxyRequest (req : Request) (env : Env) (curasevPath : string)
  : M Reply :=
  _ <- lift (assertBasicAuth req env) ;;
  token <- getToken env ;;
  search <- lift (buildSearch req) ;;
  let downstreamHeaders :=
    [("Authorization", "Bearer " +:+ interpolate token);
     ("clientkey", CURASEV_CLIENT_KEY env);
     ("Content-Type", "application/json")] in
  let body := getForwardBody req in
  response <- fetchCurasev (curasevPath +:+ search)
                {| init_method := req_method req;
                   init_headers := downstreamHeaders;
                   init_body := body |} ;;
  let contentType := default "application/json" (resp_content_type response) in
  ret {| res_status := resp_status response;
         res_headers := [("Content-Type", contentType)];
         res_body := SendText (resp_text response) |}.

Definition RouteHandler : Type := Request -> Env -> M Reply.

Definition login : RouteHandler := fun req env =>
  _ <- lift (assertBasicAuth req env) ;;
  token <- getToken env ;;
  cached <- read_cachedToken ;;
  now <- Date_now ;;
  ret {| res_status := 200;
         res_headers := [];
         res_body := SendJson
           (VObj [("token", token);
                  ("fetchedAt",
                   VNum (match cached with
                         | Some c => fetchedAt c
                         | None => now
                         end))]) |}.

Definition download_history : RouteHandler := fun req env =>
  proxyRequest req env "/api/v1/report/get-all-download-history".

(** The [routes] table.  A pathname begins with a slash, so indexing the
    object never reaches a property of [Object.prototype]. *)
Definition routes : gmap string RouteHandler :=
  <["/api/auth/login" := login]>
  (<["/api/report/download-history" := download_history]> ∅).

Definition resolveRoute (req : Request) : error + option RouteHandler :=
  match request_URL req with
  | inr url => inr (routes !! pathname url)
  | inl e => inl e
  end.

Definition challenge : string :=
  "Basic realm=" +:+ dquote +:+ "Reporting" +:+ dquote.

Definition not_found : Reply :=
  {| res_status := 404;
     res_headers := [];
     res_body := SendJson (VObj [("error", VStr "Not Found")]) |}.

(** The [catch] block of [handler]. *)
Definition error_reply (e : error) : Reply :=
  let status := default 500 (Js.status e) in
  {| res_status := status;
     res_headers := if status =? 401
                    then [("WWW-Authenticate", challenge)] else [];
     res_body := SendJson
       (VObj [("error", VStr (message e));
              ("details", default VUndefined (details e))]) |}.

Definition try_catch {A} (m : M A) (h : error -> M A) : M A :=
  fun w => match m w with
           | (inl e, w') => h e w'
           | (inr a, w') => (inr a, w')
           end.

(** The exported handler, over [process.env].  A left result is a rejected
    promise: the handler threw and wrote nothing on [res]. *)
Definition handler (penv : gmap string string) (req : Request) : M Reply :=
  env <- lift (getEnv penv) ;;
  route <- lift (resolveRoute req) ;;
  match route with
  | None => ret not_found
  | Some route => try_catch (route req env) (fun e => ret (error_reply e))
  end.

End Backend.

(** ** A reference platform

    A concrete platform to run the handler on: Node's lenient base64
    decoder, and stand-ins for [URL], [JSON] and the upstream that agree with
    the real ones on the plain inputs used below. *)

Module Node.

(** The value of a character of the base64 alphabet; the decoder reads the
    URL-safe alphabet as well. *)
Definition sextet (c : ascii) : option N :=
  let n := N_of_ascii c in
  if ((65 <=? n) && (n <=? 90))%N then Some (n - 65)%N
  else if ((97 <=? n) && (n <=? 122))%N then Some (n - 71)%N
  else if ((48 <=? n) && (n <=? 57))%N then Some (n + 4)%N
  else if ((n =? 43) || (n =? 45))%N then Some 62%N
  else if ((n =? 47) || (n =? 95))%N then Some 63%N
  else None.

(** The legal characters up to the first [=]; any other character is
    skipped. *)
Fixpoint sextets (s : string) : list N :=
  match s with
  | EmptyString => []
  | String c rest =>
      if Ascii.eqb c "="%char then []
      else match sextet c with
           | Some n => n :: sextets rest
           | None => sextets rest
           end
  end.

(** Four sextets make three bytes; a last group of two or three makes one
    or two, padded or not. *)
Fixpoint octets (l : list N) : list N :=
  match l with
  | a :: b :: c :: d :: rest =>
      (a * 4 + b / 16 :: (b mod 16) * 16 + c / 4 :: (c mod 4) * 64 + d
       :: octets rest)%N
  | [a; b; c] => [a * 4 + b / 16; (b mod 16) * 16 + c / 4]%N
  | [a; b] => [a * 4 + b / 16]%N
  | _ => []
  end.

(** [Buffer.from(s, 'base64').toString('utf8')], exact when the decoded
    bytes are 7-bit; other bytes are kept as they are. *)
Definition Buffer_base64_utf8 (s : string) : string :=
  string_of_list_ascii (List.map ascii_of_N (octets (sextets s))).

(** RFC 4648, section 4: characters of the standard alphabet only, in groups
    of four, the last group closed by at most two [=]. *)
Definition standard_char (c : ascii) : bool :=
  let n := N_of_ascii c in
  (((65 <=? n) && (n <=? 90)) || ((97 <=? n) && (n <=? 122))
   || ((48 <=? n) && (n <=? 57)) || (n =? 43) || (n =? 47))%N.

Fixpoint well_formed_groups (l : list ascii) : bool :=
  match l with
  | [] => true
  | [a; b; c; d] =>
      standard_char a && standard_char b
      && ((standard_char c && (standard_char d || Ascii.eqb d "="%char))
          || (Ascii.eqb c "="%char && Ascii.eqb d "="%char))
  | a :: b :: c :: d :: rest =>
      standard_char a && standard_char b && standard_char c && standard_char d
      && well_formed_groups rest
  | _ => false
  end.

Definition well_formed_base64 (s : string) : bool :=
  well_formed_groups (list_ascii_of_string s).

(** [new URL] on an origin-form target of unreserved characters: the query
    starts at the first question mark, and an empty query reads as no
    query. *)
Fixpoint cut_query (s : string) : string * string :=
  match s with
  | EmptyString => (EmptyString, EmptyString)
  | String c rest =>
      if Ascii.eqb c "?"%char
      then (EmptyString, match rest with EmptyString => "" | _ => s end)
      else let '(p, q) := cut_query rest in (String c p, q)
  end.

Definition plain_URL (input base : string) : error + URL :=
  let '(p, q) := cut_query input in
  inr {| pathname := match p with EmptyString => "/" | _ => p end;
         search := q |}.






(** [JSON.stringify] on values whose strings need no escaping. *)
Fixpoint print (v : value) : string :=
  match v with
  | VUndefined => "undefined"
  | VNull => "null"
  | VBool b => if b then "true" else "false"
  | VNum n => pretty n
  | VStr s => dquote +:+ s +:+ dquote
  | VArr items => "[" +:+ join "," (List.map print items) +:+ "]"
  | VObj fields =>
      "{" +:+ join "," (List.map (fun kv => dquote +:+ fst kv +:+ dquote
                                            +:+ ":" +:+ print (snd kv)) fields)
      +:+ "}"
  end.

(** [JSON.parse] by table: the text of one of the known values, or a syntax
    error. *)
Definition parse (known : list value) (text : string) : error + value :=
  match List.find (fun v => String.eqb (print v) text) known with
  | Some v => inr v
  | None => inl (Error "Unexpected token in JSON" None None)
  end.

(** ToString; inside an array, [null] and [undefined] read as nothing. *)
Fixpoint display (v : value) : string :=
  match v with
  | VNum n => pretty n
  | VBool b => if b then "true" else "false"
  | VNull => "null"
  | VUndefined => "undefined"
  | VStr s => s
  | VArr items =>
      join "," (List.map (fun item => match item with
                                      | VNull | VUndefined => ""
                                      | _ => display item
                                      end) items)
  | VObj _ => "[object Object]"
  end.

(** An upstream that answers the authentication endpoint with [login_reply]
    and every other path with [api_reply], [latency] milliseconds later. *)
Definition scripted_upstream (login_reply api_reply : Response) (latency : Z)
  : list Exchange -> Outbound -> Z -> (error + Response) * Z :=
  fun _ call t =>
    (inr (if String.eqb (out_url call) (CURASEV_BASE_URL +:+ AUTH_ENDPOINT)
          then login_reply else api_reply),
     t + latency).

Definition platform (known : list value) (login_reply api_reply : Response)
  : Platform :=
  {| base64_utf8 := Buffer_base64_utf8;
     new_URL := plain_URL;
     JSON_stringify := print;
     JSON_parse := parse known;
     to_string := display;
     upstream := scripted_upstream login_reply api_reply 120 |}.

End Node.

(** ** The browser side

    [AuthContext.tsx], the [PrivateRoute] of [App.tsx] and the page of
    [DownloadHistoryPage.tsx], as functions of the React state and of
    [window.localStorage].  What the browser provides is a [Browser]. *)

Class Browser := {
  (** [Base64.encode] of js-base64 *)
  Base64_encode : string -> string;
  (** [JSON.stringify], [JSON.parse] and ToString, as the browser has them *)
  browser_stringify : value -> string;
  browser_parse : string -> error + value;
  browser_to_string : value -> string;
  (** the [TypeError] of reading the named property of [null] *)
  null_property : string -> error;
  (** [dayjs(s).format('MMM D, YYYY h:mm A')] *)
  dayjs_format : string -> string;
  (** [import.meta.env.VITE_BACKEND_URL ?? ''] *)
  API_BASE : string;
  (** [window.fetch]: how the promise of a call settles *)
  window_fetch : Outbound -> error + Response
}.

Definition STORAGE_KEY : string := "curasev-reporting-auth".

(** The provider's React state, [undefined] or whatever was parsed or set,
    and [window.localStorage], absent where there is no [window]. *)
Record Client := {
  localStorage : option (gmap string string);
  state : value
}.

Record AuthContextValue := {
  isAuthenticated : bool;
  sessionToken : value;
  authorizationHeader : option string
}.

(** What a route renders. *)
Inductive Element :=
| Children
| Navigate (to : string).

Record DownloadHistoryRecord := {
  reportName : option string;
  downloadedBy : option string;
  downloadedAt : option string;
  filePath : option string
}.

(** The output of [DownloadHistoryResponseSchema]. *)
Record DownloadHistoryResponse := {
  dh_code : string;
  dh_status : string;
  dh_message : option string;
  dh_data : option (list DownloadHistoryRecord)
}.

Record TableRow := { row_key : string; row_cells : list string }.

(** What the page shows below its header. *)
Inductive View :=
| Spinner
| ErrorAlert (text : string)
| InfoAlert (text : string)
| Table (rows : list TableRow).

Definition em_dash : string := "—".

Section Frontend.
Context {B : Browser}.

Definition loadInitialState (storage : option (gmap string string)) : value :=
  match storage with
  | None => VUndefined
  | Some items =>
      match items !! STORAGE_KEY with
      | None => VUndefined
      | Some raw =>
          if String.eqb raw "" then VUndefined
          else match browser_parse raw with
               | inr parsed => parsed
               | inl _ => VUndefined
               end
      end
  end.

(** [payload.k], which throws on [null]. *)
Definition property (k : string) (v : value) : error + value :=
  match v with
  | VNull | VUndefined => inl (null_property k)
  | _ => inr (get k v)
  end.

Definition browser_interpolate (v : value) : string :=
  match v with VStr s => s | _ => browser_to_string v end.

Definition signIn (username password : string) (c : Client)
  : (error + unit) * Client :=
  let authHeader := "Basic " +:+ Base64_encode (username +:+ ":" +:+ password) in
  match window_fetch
          {| out_url := API_BASE +:+ "/api/auth/login";
             out_init := {| init_method := "POST";
                            init_headers := [("Authorization", authHeader)];
                            init_body := None |} |} with
  | inl e => (inl e, c)
  | inr response =>
      if negb (ok response) then
        (inl (Error (if String.eqb (resp_text response) ""
                     then "Invalid credentials or API unreachable"
                     else resp_text response) None None), c)
      else
        match browser_parse (resp_text response) with
        | inl e => (inl e, c)
        | inr payload =>
            match property "token" payload with
            | inl e => (inl e, c)
            | inr token =>
                let nextState :=
                  VObj [("basicUser", VStr username);
                        ("basicPass", VStr password);
                        ("sessionToken", token)] in
                (inr tt,
                 {| localStorage :=
                      match localStorage c with
                      | Some items =>
                          Some (<[STORAGE_KEY := browser_stringify nextState]> items)
                      | None => None
                      end;
                    state := nextState |})
            end
        end
  end.

Definition signOut (c : Client) : Client :=
  {| localStorage :=
       match localStorage c with
       | Some items => Some (delete STORAGE_KEY items)
       | None => None
       end;
     state := VUndefined |}.

(** The [useMemo] of [AuthProvider]. *)
Definition context_value (st : value) : AuthContextValue :=
  if negb (truthy st) then
    {| isAuthenticated := false;
       sessionToken := VUndefined;
       authorizationHeader := None |}
  else
    {| isAuthenticated := true;
       sessionToken := get "sessionToken" st;
       authorizationHeader :=
         Some ("Basic " +:+
               Base64_encode (browser_interpolate (get "basicUser" st) +:+ ":"
                              +:+ browser_interpolate (get "basicPass" st))) |}.

Definition PrivateRoute (ctx : AuthContextValue) : Element :=
  if negb (isAuthenticated ctx) then Navigate "/login" else Children.

(** [enabled: Boolean(authorization)] of [useDownloadHistory]. *)
Definition query_enabled (authorization : option string) : bool :=
  match authorization with
  | Some header => negb (String.eqb header "")
  | None => false
  end.

(** The React key of a row: [`${record.filePath ?? index}-${index}`]. *)
Definition table_row_key (record : DownloadHistoryRecord) (index : nat) : string :=
  default (pretty index) (filePath record) +:+ "-" +:+ pretty index.

Definition table_row (index : nat) (record : DownloadHistoryRecord) : TableRow :=
  {| row_key := table_row_key record index;
     row_cells :=
       [default em_dash (reportName record);
        default em_dash (downloadedBy record);
        match downloadedAt record with
        | Some at_ => if String.eqb at_ "" then em_dash else dayjs_format at_
        | None => em_dash
        end;
        default em_dash (filePath record)] |}.

(** The [useMemo] of the page: [data?.data], or no records. *)
Definition records (data : option DownloadHistoryResponse)
  : list DownloadHistoryRecord :=
  match data with
  | Some response => default [] (dh_data response)
  | None => []
  end.

(** The page below its header, from what the query reports. *)
Definition DownloadHistoryPage (isLoading : bool) (failure : option error)
    (data : option DownloadHistoryResponse) : View :=
  if isLoading then Spinner
  else match failure with
       | Some e => ErrorAlert (message e)
       | None =>
           match records data with
           | [] => InfoAlert "No downloads recorded for the selected period."
           | rs => Table (imap table_row rs)
           end
       end.

End Frontend.


(** ** Sample configurations, requests and worlds *)

Module Sample.

Definition penv : gmap string string :=
  list_to_map
    [("CURASEV_USERNAME", "svc-reporting"); ("CURASEV_PASSWORD", "s3cret");
     ("CURASEV_CLIENT_KEY", "client-7"); ("BASIC_AUTH_USER", "user");
     ("BASIC_AUTH_PASS", "pass")].

Definition env : Env :=
  {| CURASEV_USERNAME := "svc-reporting"; CURASEV_PASSWORD := "s3cret";
     CURASEV_CLIENT_KEY := "client-7"; BASIC_AUTH_USER := "user";
     BASIC_AUTH_PASS := "pass" |}.

(** The same configuration with a password that holds a colon. *)
Definition env_colon : Env :=
  {| CURASEV_USERNAME := "svc-reporting"; CURASEV_PASSWORD := "s3cret";
     CURASEV_CLIENT_KEY := "client-7"; BASIC_AUTH_USER := "user";
     BASIC_AUTH_PASS := "pa:ss" |}.

(** [process.env] without [BASIC_AUTH_PASS]. *)
Definition penv_incomplete : gmap string string :=
  delete "BASIC_AUTH_PASS" penv.

Definition token_body : value :=
  VObj [("data", VObj [("patient", VObj [("currentToken", VStr "tok-1")])])].

Definition no_token_body : value :=
  VObj [("data", VObj [("patient", VObj [])])].

Definition history_text : string := "{" +:+ dquote +:+ "data" +:+ dquote +:+ ":[]}".

Definition login_ok : Response :=
  {| resp_status := 200;
     resp_content_type := Some "application/json";
     resp_text := Node.print token_body |}.

Definition login_no_token : Response :=
  {| resp_status := 200;
     resp_content_type := Some "application/json";
     resp_text := Node.print no_token_body |}.

Definition history_ok : Response :=
  {| resp_status := 200; resp_content_type := None; resp_text := history_text |}.

Definition maintenance : Response :=
  {| resp_status := 503; resp_content_type := None; resp_text := "maintenance" |}.

Definition healthy : Platform :=
  Node.platform [token_body; no_token_body] login_ok history_ok.

Definition tokenless : Platform :=
  Node.platform [token_body; no_token_body] login_no_token history_ok.

Definition down : Platform :=
  Node.platform [token_body; no_token_body] login_ok maintenance.

(** An upstream whose login answers 200 with a page that is not JSON. *)
Definition login_html : Response :=
  {| resp_status := 200;
     resp_content_type := Some "text/html";
     resp_text := "<html>busy</html>" |}.

Definition garbled : Platform :=
  Node.platform [token_body; no_token_body] login_html history_ok.


Definition request (url authorization method : string) (body : value) : Request :=
  {| req_url := Some url; req_host := Some "reports.example";
     req_authorization := Some authorization;
     req_method := method; req_body := body |}.

(** [user:pass], [user:pass] with a space inside the encoding,
    [user:pass:extra] and [user:wrong]. *)
Definition basic_ok : string := "Basic dXNlcjpwYXNz".
Definition basic_spaced : string := "Basic dXNlcjpw YXNz".
Definition basic_extra : string := "Basic dXNlcjpwYXNzOmV4dHJh".
Definition basic_wrong : string := "Basic dXNlcjp3cm9uZw==".

Definition empty_world : World :=
  {| cachedToken := None; clock := 1000; exchanges := [] |}.

(** A token fetched a minute ago, and one fetched exactly the TTL ago. *)
Definition fresh_world : World :=
  {| cachedToken := Some {| token := VStr "tok-0"; fetchedAt := 1000 |};
     clock := 61000; exchanges := [] |}.

Definition expired_world : World :=
  {| cachedToken := Some {| token := VStr "tok-0"; fetchedAt := 1000 |};
     clock := 1501000; exchanges := [] |}.

End Sample.

(** ** A reference browser *)

Module Web.

(** The character of a sextet in the standard alphabet. *)
Definition sextet_char (n : N) : ascii :=
  if (n <? 26)%N then ascii_of_N (n + 65)
  else if (n <? 52)%N then ascii_of_N (n + 71)
  else if (n <? 62)%N then ascii_of_N (n - 4)
  else if (n =? 62)%N then "+"%char
  else "/"%char.

(** Three bytes make four characters; a last group of one or two bytes is
    padded with [=]. *)
Fixpoint encode_octets (l : list N) : list ascii :=
  match l with
  | a :: b :: c :: rest =>
      sextet_char (a / 4) :: sextet_char ((a mod 4) * 16 + b / 16)
      :: sextet_char ((b mod 16) * 4 + c / 64) :: sextet_char (c mod 64)
      :: encode_octets rest
  | [a; b] =>
      [sextet_char (a / 4); sextet_char ((a mod 4) * 16 + b / 16);
       sextet_char ((b mod 16) * 4); "="%char]
  | [a] =>
      [sextet_char (a / 4); sextet_char ((a mod 4) * 16); "="%char; "="%char]
  | [] => []
  end%N.

(** [Base64.encode] on a string of 7-bit characters. *)
Definition encode (s : string) : string :=
  string_of_list_ascii
    (encode_octets (List.map N_of_ascii (list_ascii_of_string s))).

Definition null_read (k : string) : error :=
  Error ("Cannot read properties of null (reading '" +:+ k +:+ "')") None None.

(** A browser whose backend answers every call with [reply]. *)
Definition browser (known : list value) (reply : error + Response) : Browser :=
  {| Base64_encode := encode;
     browser_stringify := Node.print;
     browser_parse := Node.parse known;
     browser_to_string := Node.display;
     null_property := null_read;
     dayjs_format := fun s => s;
     API_BASE := "";
     window_fetch := fun _ => reply |}.

End Web.

Module ClientSample.

Definition login_payload : value :=
  VObj [("token", VStr "tok-1"); ("fetchedAt", VNum 1120)].

Definition signed_in : value :=
  VObj [("basicUser", VStr "user"); ("basicPass", VStr "pass");
        ("sessionToken", VStr "tok-1")].

Definition known : list value := [login_payload; signed_in; VNum 1].

Definition accepted : Browser :=
  Web.browser known
    (inr {| resp_status := 200;
            resp_content_type := Some "application/json";
            resp_text := Node.print login_payload |}).

Definition refused : Browser :=
  Web.browser known
    (inr {| resp_status := 401; resp_content_type := None; resp_text := "" |}).

(** A browser with another key in its storage and nobody signed in. *)
Definition fresh_client : Client :=
  {| localStorage := Some {[ "theme" := "dark" ]}; state := VUndefined |}.

Definition signed_in_client : Client :=
  {| localStorage :=
       Some (<[STORAGE_KEY := Node.print signed_in]> {[ "theme" := "dark" ]});
     state := signed_in |}.

Definition history : list DownloadHistoryRecord :=
  [{| reportName := Some "R1"; downloadedBy := Some "alice";
      downloadedAt := Some "2024-01-01T00:00:00Z"; filePath := Some "/r1.pdf" |};
   {| reportName := None; downloadedBy := None;
      downloadedAt := Some ""; filePath := None |};
   {| reportName := Some "R1"; downloadedBy := Some "bob";
      downloadedAt := None; filePath := Some "/r1.pdf" |}].

End ClientSample.


(** * Properties *)

Section Properties.
Context {P : Platform}.

(** The authentication call of [getToken]. *)
Definition auth_call (env : Env) : Outbound :=
  {| out_url := CURASEV_BASE_URL +:+ AUTH_ENDPOINT; out_init := auth_init env |}.

(** The world once [call], issued in [w], has settled. *)
Definition after_fetch (call : Outbound) (w : World) : World :=
  {| cachedToken := cachedToken w;
     clock := (upstream (exchanges w) call (clock w)).2;
     exchanges := exchanges w ++
       [{| ex_call := call;
           ex_settled := (upstream (exchanges w) call (clock w)).1 |}] |}.

(** The slot is empty, or its token is at least [TOKEN_TTL_MS] old. *)
Definition stale (w : World) : Prop :=
  match cachedToken w with
  | None => True
  | Some c => TOKEN_TTL_MS <= clock w - fetchedAt c
  end.

(** A header the credential guard turns down: none at all, one that does
    not start with the scheme, or one whose decoded payload, cut at its
    colons, does not begin with the configured user and password. *)
Inductive lacks_credentials (env : Env) : option string -> Prop :=
| no_header : lacks_credentials env None
| wrong_scheme header :
    String.prefix "Basic " header = false ->
    lacks_credentials env (Some header)
| wrong_pair header :
    (split colon (base64_utf8 (slice 6 header)) !! 0%nat,
     split colon (base64_utf8 (slice 6 header)) !! 1%nat)
    <> (Some (BASIC_AUTH_USER env), Some (BASIC_AUTH_PASS env)) ->
    lacks_credentials env (Some header).

(** The call [proxyRequest] forwards. *)
Definition forward_call (req : Request) (env : Env) (curasevPath : string)
    (token : value) (search : string) : Outbound :=
  {| out_url := CURASEV_BASE_URL +:+ curasevPath +:+ search;
     out_init :=
       {| init_method := req_method req;
          init_headers :=
            [("Authorization", "Bearer " +:+ interpolate token);
             ("clientkey", CURASEV_CLIENT_KEY env);
             ("Content-Type", "application/json")];
          init_body := getForwardBody req |} |}.

(** What [proxyRequest] writes for an upstream response. *)
Definition relayed (response : Response) : Reply :=
  {| res_status := resp_status response;
     res_headers :=
       [("Content-Type",
         default "application/json" (resp_content_type response))];
     res_body := SendText (resp_text response) |}.

(** A computation only adds exchanges to the world, and throws the API
    error of any one that came back with a status that is not [ok]. *)
Definition surfaces_api_errors {A} (m : M A) : Prop :=
  forall w, exists new,
    exchanges (m w).2 = exchanges w ++ new
    /\ forall x r, In x new -> ex_settled x = inr r -> ok r = false ->
         (m w).1 = inl (api_error r).

(** The world once [getToken] has stored [tok], fetched from [w]. *)
Definition after_refresh (env : Env) (w : World) (tok : value) : World :=
  {| cachedToken :=
       Some {| token := tok;
               fetchedAt := clock (after_fetch (auth_call env) w) |};
     clock := clock (after_fetch (auth_call env) w);
     exchanges := exchanges (after_fetch (auth_call env) w) |}.

(** A variable of [process.env] that fails [z.string().min(1)]. *)
Definition missing_or_empty (penv : gmap string string) (key : string) : Prop :=
  penv !! key = None \/ penv !! key = Some "".

(** A token in the slot is a truthy value. *)
Definition slot_truthy (w : World) : Prop :=
  forall c, cachedToken w = Some c -> truthy (token c) = true.

(** A token in the slot was not fetched after the present time. *)
Definition slot_not_ahead (w : World) : Prop :=
  forall c, cachedToken w = Some c -> fetchedAt c <= clock w.

(** The promise of a call never settles before the call is issued. *)
Definition time_moves_forward : Prop :=
  forall log call t, t <= (upstream log call t).2.


(** ** Run equations *)

Lemma fetch_run url init w :
  fetch url init w =
  ((upstream (exchanges w) {| out_url := url; out_init := init |} (clock w)).1,
   after_fetch {| out_url := url; out_init := init |} w).
Proof.
  unfold fetch, after_fetch.
  destruct (upstream _ _ _) as [settled t]. reflexivity.
Qed.

Lemma fetchCurasev_run path init w :
  let call := {| out_url := CURASEV_BASE_URL +:+ path; out_init := init |} in
  fetchCurasev path init w =
  (match (upstream (exchanges w) call (clock w)).1 with
   | inl e => inl e
   | inr r => if ok r then inr r else inl (api_error r)
   end, after_fetch call w).
Proof.
  intros call. unfold fetchCurasev, bind. rewrite fetch_run. fold call.
  destruct (upstream _ _ _).1 as [e | r]; [reflexivity |].
  destruct (ok r); reflexivity.
Qed.

Lemma getToken_miss_run env w :
  getToken_miss env w =
  match (upstream (exchanges w) (auth_call env) (clock w)).1 with
  | inl e => (inl e, after_fetch (auth_call env) w)
  | inr r =>
      if ok r then
        match JSON_parse (resp_text r) with
        | inl e => (inl e, after_fetch (auth_call env) w)
        | inr json =>
            if truthy (currentToken json) then
              (inr (currentToken json),
               {| cachedToken :=
                    Some {| token := currentToken json;
                            fetchedAt := clock (after_fetch (auth_call env) w) |};
                  clock := clock (after_fetch (auth_call env) w);
                  exchanges := exchanges (after_fetch (auth_call env) w) |})
            else (inl (missing_token json), after_fetch (auth_call env) w)
        end
      else (inl (api_error r), after_fetch (auth_call env) w)
  end.
Proof.
  unfold getToken_miss, bind. rewrite fetchCurasev_run.
  fold (auth_call env).
  destruct (upstream _ _ _).1 as [e | r]; [reflexivity |].
  destruct (ok r); [| reflexivity].
  unfold lift. destruct (JSON_parse _) as [e | json]; [reflexivity |].
  destruct (truthy _); reflexivity.
Qed.

Lemma getToken_stale env w : stale w -> getToken env w = getToken_miss env w.
Proof.
  unfold stale, getToken, bind, read_cachedToken, Date_now.
  destruct (cachedToken w) as [c |]; [| reflexivity].
  intros Hage. destruct (Z.ltb_spec (clock w - fetchedAt c) TOKEN_TTL_MS); [lia | reflexivity].
Qed.

(** ** The upstream session manager *)

(** C1.  A token younger than the TTL is returned as it is cached, and the
    world comes back as it was given: no exchange with the upstream is
    added and the slot is untouched. *)
Theorem getToken_fresh_hit env w c :
  cachedToken w = Some c ->
  clock w - fetchedAt c < TOKEN_TTL_MS ->
  getToken env w = (inr (token c), w)
  /\ exchanges (getToken env w).2 = exchanges w
  /\ cachedToken (getToken env w).2 = cachedToken w.
Proof.
  intros Hc Hage.
  assert (Hrun : getToken env w = (inr (token c), w)).
  { unfold getToken, bind, read_cachedToken, Date_now. rewrite Hc.
    destruct (Z.ltb_spec (clock w - fetchedAt c) TOKEN_TTL_MS); [reflexivity | lia]. }
  rewrite Hrun. auto.
Qed.

(** C2.  With the slot empty or its token at least the TTL old, [getToken]
    adds exactly one exchange, the authentication call; when that call is
    answered with a success status and a body holding a token, the slot
    holds that token stamped with the time read after the answer, and the
    token is returned. *)
Theorem getToken_stale_refresh env w :
  stale w ->
  exchanges (getToken env w).2 =
    exchanges w ++
    [{| ex_call := auth_call env;
        ex_settled := (upstream (exchanges w) (auth_call env) (clock w)).1 |}]
  /\ forall r json,
       (upstream (exchanges w) (auth_call env) (clock w)).1 = inr r ->
       ok r = true ->
       JSON_parse (resp_text r) = inr json ->
       truthy (currentToken json) = true ->
       (getToken env w).1 = inr (currentToken json)
       /\ cachedToken (getToken env w).2 =
            Some {| token := currentToken json;
                    fetchedAt := clock (getToken env w).2 |}
       /\ clock (getToken env w).2 =
            (upstream (exchanges w) (auth_call env) (clock w)).2.
Proof.
  intros Hstale. rewrite (getToken_stale _ _ Hstale), getToken_miss_run.
  split.
  - unfold after_fetch.
    destruct (upstream _ _ _).1 as [e | r]; [reflexivity |].
    destruct (ok r); [| reflexivity].
    destruct (JSON_parse _) as [e | json]; [reflexivity |].
    destruct (truthy _); reflexivity.
  - intros r json Hr Hok Hjson Htok.
    rewrite Hr, Hok, Hjson, Htok. simpl. auto.
Qed.

(** C3, as the code has it.  A success status from the authentication
    endpoint with no token to take: when the body parses and holds no token
    where it is expected, [getToken] throws the 502 error with the parsed
    body as its details; when the body is not JSON, [getToken] throws the
    error of [response.json()], which is not the 502 error unless the
    platform makes it so.  The slot is what it was either way. *)
Theorem getToken_missing_token env w r :
  stale w ->
  (upstream (exchanges w) (auth_call env) (clock w)).1 = inr r ->
  ok r = true ->
  (forall json,
      JSON_parse (resp_text r) = inr json ->
      truthy (currentToken json) = false ->
      (getToken env w).1 =
        inl (Error "Curasev authentication failed: missing token" (Some 502)
                   (Some json))
      /\ cachedToken (getToken env w).2 = cachedToken w)
  /\ (forall e,
        JSON_parse (resp_text r) = inl e ->
        (getToken env w).1 = inl e
        /\ cachedToken (getToken env w).2 = cachedToken w).
Proof.
  intros Hstale Hr Hok.
  rewrite (getToken_stale _ _ Hstale), getToken_miss_run.
  rewrite Hr, Hok. split.
  - intros json Hjson Htok. rewrite Hjson, Htok. split; reflexivity.
  - intros e Hjson. rewrite Hjson. split; reflexivity.
Qed.

(** Whatever makes [getToken] throw, a rejected call, an error status, a
    body that is not JSON or a missing token, the slot is what it was. *)
Lemma getToken_failure_keeps_cache env w e :
  (getToken env w).1 = inl e ->
  cachedToken (getToken env w).2 = cachedToken w.
Proof.
  unfold getToken, bind, read_cachedToken, Date_now.
  assert (Hmiss : (getToken_miss env w).1 = inl e ->
                  cachedToken (getToken_miss env w).2 = cachedToken w).
  { rewrite getToken_miss_run.
    destruct (upstream _ _ _).1 as [e' | r]; [reflexivity |].
    destruct (ok r); [| reflexivity].
    destruct (JSON_parse _) as [e' | json]; [reflexivity |].
    destruct (truthy _); [discriminate | reflexivity]. }
  destruct (cachedToken w) as [c |] eqn:Hc; [| exact Hmiss].
  destruct (_ <? _); [discriminate | exact Hmiss].
Qed.

(** ** The credential guard *)

(** A split always has a first segment. *)
Lemma split_cons sep s : exists seg segs, split sep s = seg :: segs.
Proof.
  destruct s as [| c rest]; simpl; [eauto |].
  destruct (Ascii.eqb c sep); [eauto |].
  destruct (split sep rest); eauto.
Qed.

(** No segment of a split holds the separator. *)
Lemma split_segments_clean sep s seg :
  In seg (split sep s) -> occurs sep seg = false.
Proof.
  revert seg. induction s as [| c rest IH]; simpl; intros seg Hin.
  - destruct Hin as [<- | []]. reflexivity.
  - destruct (Ascii.eqb c sep) eqn:Hc.
    + destruct Hin as [<- | Hin]; [reflexivity | auto].
    + destruct (split sep rest) as [| seg0 segs].
      * destruct Hin as [<- | []]. simpl. rewrite Hc. reflexivity.
      * destruct Hin as [<- | Hin].
        -- simpl. rewrite Hc. simpl. apply IH. left. reflexivity.
        -- apply IH. right. exact Hin.
Qed.

(** A prefix free of the separator, followed by one, is the first segment. *)
Lemma split_first sep u t :
  occurs sep u = false ->
  split sep (u +:+ String sep t) = u :: split sep t.
Proof.
  induction u as [| c u IH]; simpl; intros Hu.
  - rewrite Ascii.eqb_refl. reflexivity.
  - apply orb_false_iff in Hu as [Hc Hu].
    rewrite Hc, (IH Hu). reflexivity.
Qed.

(** The guard accepts a request exactly when its header starts with the
    scheme and the decoded payload, cut at every colon, has the configured
    user as its first segment and the configured password as its second. *)
Lemma assertBasicAuth_accepts req env :
  assertBasicAuth req env = inr tt <->
  exists header rest,
    req_authorization req = Some header
    /\ String.prefix "Basic " header = true
    /\ split colon (base64_utf8 (slice 6 header))
       = BASIC_AUTH_USER env :: BASIC_AUTH_PASS env :: rest.
Proof.
  unfold assertBasicAuth.
  destruct (req_authorization req) as [header |];
    [| split; [discriminate | intros (h & r & [=] & _)]].
  change (String.length "Basic ") with 6%nat. cbv zeta.
  remember (split colon (base64_utf8 (slice 6 header))) as parts eqn:Hparts.
  destruct (String.prefix "Basic " header) eqn:Hp; cbn [negb];
    [| split; [discriminate | intros (h & r & [= <-] & Hp' & _); congruence]].
  split.
  - intros Hrun. exists header.
    destruct parts as [| u [| p rest]];
      cbn in Hrun; repeat case_bool_decide; simplify_eq; try discriminate.
    rewrite <- Hparts. eauto.
  - intros (h & r & [= <-] & _ & Hs). rewrite <- Hparts in Hs. rewrite Hs.
    cbn. rewrite !bool_decide_eq_true_2 by reflexivity. reflexivity.
Qed.

(** Whatever the guard throws is the 401 error. *)
Lemma assertBasicAuth_throws req env e :
  assertBasicAuth req env = inl e -> e = unauthorized.
Proof.
  unfold assertBasicAuth.
  destruct (req_authorization req); [| congruence].
  destruct (negb _); [congruence |].
  destruct (_ || _); congruence.
Qed.

Lemma assertBasicAuth_rejects req env :
  lacks_credentials env (req_authorization req) ->
  assertBasicAuth req env = inl unauthorized.
Proof.
  intros Hlack.
  destruct (assertBasicAuth req env) as [e | []] eqn:Hrun.
  - f_equal. eapply assertBasicAuth_throws; eauto.
  - apply assertBasicAuth_accepts in Hrun as (header & rest & Hh & Hp & Hs).
    rewrite Hh in Hlack. inversion Hlack as [| h Hp' | h Hpair]; subst.
    + congruence.
    + rewrite Hs in Hpair. simpl in Hpair. congruence.
Qed.

(** C10.  The decoded credentials are cut at every colon and only the first
    two segments are compared: [user:pass:extra] passes when [user] and
    [pass] are the configured pair, and a configured password that holds a
    colon is matched by no request at all. *)
Theorem assertBasicAuth_colon_split env req :
  (forall header extra,
      req_authorization req = Some header ->
      String.prefix "Basic " header = true ->
      occurs colon (BASIC_AUTH_USER env) = false ->
      occurs colon (BASIC_AUTH_PASS env) = false ->
      base64_utf8 (slice 6 header)
      = BASIC_AUTH_USER env +:+ ":" +:+ BASIC_AUTH_PASS env +:+ ":" +:+ extra ->
      assertBasicAuth req env = inr tt)
  /\ (occurs colon (BASIC_AUTH_PASS env) = true ->
      assertBasicAuth req env = inl unauthorized).
Proof.
  split.
  - intros header extra Hh Hp Hu Hpw Hdec.
    apply assertBasicAuth_accepts. exists header, (split colon extra).
    split; [exact Hh |]. split; [exact Hp |].
    rewrite Hdec.
    change (":" +:+ BASIC_AUTH_PASS env +:+ ":" +:+ extra)
      with (String colon (BASIC_AUTH_PASS env +:+ String colon extra)).
    rewrite (split_first _ _ _ Hu), (split_first _ _ _ Hpw). reflexivity.
  - intros Hcolon.
    destruct (assertBasicAuth req env) as [e | []] eqn:Hrun.
    + f_equal. eapply assertBasicAuth_throws; eauto.
    + apply assertBasicAuth_accepts in Hrun as (header & rest & _ & _ & Hs).
      assert (Hclean : occurs colon (BASIC_AUTH_PASS env) = false).
      { apply (split_segments_clean colon (base64_utf8 (slice 6 header))).
        rewrite Hs. right. left. reflexivity. }
      congruence.
Qed.

(** ** The forwarded body *)

(** C8.  Nothing is sent for GET and HEAD; for any other method a string
    body goes out as it is, an absent body ([undefined] or [null]) is left
    out, and an object or an array goes out as [JSON.stringify] prints it. *)
Theorem getForwardBody_cases req :
  (req_method req = "GET" \/ req_method req = "HEAD" ->
   getForwardBody req = None)
  /\ (req_method req <> "GET" -> req_method req <> "HEAD" ->
      (forall s, req_body req = VStr s -> getForwardBody req = Some s)
      /\ (req_body req = VUndefined \/ req_body req = VNull ->
          getForwardBody req = None)
      /\ ((exists items, req_body req = VArr items)
          \/ (exists fields, req_body req = VObj fields) ->
          getForwardBody req = Some (JSON_stringify (req_body req)))).
Proof.
  unfold getForwardBody. split.
  - intros [-> | ->]; reflexivity.
  - intros Hget Hhead.
    apply String.eqb_neq in Hget, Hhead. rewrite Hget, Hhead. simpl.
    repeat split.
    + intros s ->. reflexivity.
    + intros [-> | ->]; reflexivity.
    + intros [[items ->] | [fields ->]]; reflexivity.
Qed.

(** A string counts as a string even when it is empty, and the other falsy
    values are left out like an absent body. *)
Example getForwardBody_empty_string req :
  req_method req = "POST" -> req_body req = VStr "" ->
  getForwardBody req = Some "".
Proof. unfold getForwardBody. intros -> ->. reflexivity. Qed.

Example getForwardBody_falsy req :
  req_method req = "POST" ->
  req_body req = VNum 0 \/ req_body req = VBool false ->
  getForwardBody req = None.
Proof. unfold getForwardBody. intros -> [-> | ->]; reflexivity. Qed.

(** ** Routes and the dispatcher *)

Lemma routes_lookup p :
  routes !! p =
  if String.eqb p "/api/auth/login" then Some login
  else if String.eqb p "/api/report/download-history" then Some download_history
  else None.
Proof.
  unfold routes.
  destruct (String.eqb_spec p "/api/auth/login") as [-> | Hlogin].
  - apply lookup_insert_eq.
  - rewrite lookup_insert_ne by congruence.
    destruct (String.eqb_spec p "/api/report/download-history") as [-> | Hhist].
    + apply lookup_insert_eq.
    + rewrite lookup_insert_ne by congruence. apply lookup_empty.
Qed.

Lemma login_run req env w :
  login req env w =
  match assertBasicAuth req env with
  | inl e => (inl e, w)
  | inr _ =>
      match getToken env w with
      | (inl e, w1) => (inl e, w1)
      | (inr tok, w1) =>
          (inr {| res_status := 200;
                  res_headers := [];
                  res_body := SendJson
                    (VObj [("token", tok);
                           ("fetchedAt",
                            VNum (match cachedToken w1 with
                                  | Some c => fetchedAt c
                                  | None => clock w1
                                  end))]) |}, w1)
      end
  end.
Proof.
  unfold login, bind, lift.
  destruct (assertBasicAuth req env); [reflexivity |].
  destruct (getToken env w) as [[e | tok] w1]; reflexivity.
Qed.

Lemma proxyRequest_run req env path w :
  proxyRequest req env path w =
  match assertBasicAuth req env with
  | inl e => (inl e, w)
  | inr _ =>
      match getToken env w with
      | (inl e, w1) => (inl e, w1)
      | (inr tok, w1) =>
          match buildSearch req with
          | inl e => (inl e, w1)
          | inr search =>
              let call := forward_call req env path tok search in
              (match (upstream (exchanges w1) call (clock w1)).1 with
               | inl e => inl e
               | inr r => if ok r then inr (relayed r) else inl (api_error r)
               end, after_fetch call w1)
          end
      end
  end.
Proof.
  unfold proxyRequest, bind, lift.
  destruct (assertBasicAuth req env); [reflexivity |].
  destruct (getToken env w) as [[e | tok] w1]; [reflexivity |].
  destruct (buildSearch req) as [e | search]; [reflexivity |].
  rewrite fetchCurasev_run. unfold forward_call.
  destruct (upstream _ _ _).1 as [e | r]; [reflexivity |].
  destruct (ok r); reflexivity.
Qed.

Lemma handler_run penv req w :
  handler penv req w =
  match getEnv penv with
  | inl e => (inl e, w)
  | inr env =>
      match request_URL req with
      | inl e => (inl e, w)
      | inr url =>
          match routes !! pathname url with
          | None => (inr not_found, w)
          | Some route =>
              match route req env w with
              | (inl e, w') => (inr (error_reply e), w')
              | (inr reply, w') => (inr reply, w')
              end
          end
      end
  end.
Proof.
  unfold handler, bind, lift, resolveRoute, try_catch, ret.
  destruct (getEnv penv) as [e | env]; [reflexivity |].
  destruct (request_URL req) as [e | url]; [reflexivity |].
  destruct (routes !! pathname url) as [route |]; reflexivity.
Qed.


Lemma handler_without_config penv req w e :
  getEnv penv = inl e -> handler penv req w = (inl e, w).
Proof. intros He. rewrite handler_run, He. reflexivity. Qed.


(** C9, as the code has it.  [getEnv] runs before the [try] of [handler]:
    with [BASIC_AUTH_PASS] missing the handler's promise is rejected with
    the configuration error and nothing is written on [res], whatever the
    request, the world and the platform. *)
Theorem handler_missing_config_rejects req w :
  handler Sample.penv_incomplete req w =
    (inl (Error "Missing environment variables" (Some 500)
                (Some (VStr "BASIC_AUTH_PASS"))), w).
Proof. apply handler_without_config. vm_compute. reflexivity. Qed.



(** ** Errors at the dispatcher *)

Lemma login_replies_200 req env w reply :
  (login req env w).1 = inr reply -> res_status reply = 200.
Proof.
  rewrite login_run.
  destruct (assertBasicAuth req env); [discriminate |].
  destruct (getToken env w) as [[e | tok] w1]; [discriminate |].
  intros [= <-]. reflexivity.
Qed.

Lemma proxyRequest_replies_ok req env path w reply :
  (proxyRequest req env path w).1 = inr reply ->
  200 <= res_status reply < 300.
Proof.
  rewrite proxyRequest_run.
  destruct (assertBasicAuth req env); [discriminate |].
  destruct (getToken env w) as [[e | tok] w1]; [discriminate |].
  destruct (buildSearch req) as [e | search]; [discriminate |].
  cbv zeta. simpl.
  destruct (upstream _ _ _).1 as [e | r]; [discriminate |].
  destruct (ok r) eqn:Hok; [| discriminate].
  intros [= <-]. unfold ok in Hok. simpl. lia.
Qed.

Lemma error_reply_challenge e :
  res_status (error_reply e) = 401 ->
  In ("WWW-Authenticate", challenge) (res_headers (error_reply e)).
Proof.
  unfold error_reply. simpl. intros ->. simpl. left. reflexivity.
Qed.

(** Every reply of the handler with status 401 carries the challenge. *)
Lemma handler_401_challenge penv req w reply :
  (handler penv req w).1 = inr reply ->
  res_status reply = 401 ->
  In ("WWW-Authenticate", challenge) (res_headers reply).
Proof.
  rewrite handler_run.
  destruct (getEnv penv) as [e | env]; [discriminate |].
  destruct (request_URL req) as [e | url]; [discriminate |].
  rewrite routes_lookup.
  destruct (String.eqb _ _).
  - pose proof (login_replies_200 req env w) as Hok.
    destruct (login req env w) as [[e | reply'] w']; simpl in *.
    + intros [= <-]. apply error_reply_challenge.
    + intros [= <-] H401. specialize (Hok _ eq_refl). lia.
  - destruct (String.eqb _ _).
    + unfold download_history.
      pose proof (proxyRequest_replies_ok req env
                    "/api/v1/report/get-all-download-history" w) as Hok.
      destruct (proxyRequest _ _ _ _) as [[e | reply'] w']; simpl in *.
      * intros [= <-]. apply error_reply_challenge.
      * intros [= <-] H401. specialize (Hok _ eq_refl). lia.
    + intros [= <-]. discriminate.
Qed.

(** C4, as the code has it.  On either route, a request with no
    [Authorization] header, with one that does not start with [Basic ], or
    with one whose payload, as the platform decodes it, does not split into
    the configured user and password, is answered 401 with the challenge
    and the error envelope, the world untouched; and every 401 the handler
    ever answers carries the challenge. *)
Theorem handler_unauthorized_401 penv env req url w :
  getEnv penv = inr env ->
  request_URL req = inr url ->
  pathname url = "/api/auth/login"
  \/ pathname url = "/api/report/download-history" ->
  lacks_credentials env (req_authorization req) ->
  handler penv req w =
    (inr {| res_status := 401;
            res_headers :=
              [("WWW-Authenticate",
                "Basic realm=" +:+ dquote +:+ "Reporting" +:+ dquote)];
            res_body := SendJson (VObj [("error", VStr "Unauthorized");
                                        ("details", VUndefined)]) |}, w)
  /\ forall penv' req' w' reply,
       (handler penv' req' w').1 = inr reply ->
       res_status reply = 401 ->
       In ("WWW-Authenticate",
           "Basic realm=" +:+ dquote +:+ "Reporting" +:+ dquote)
          (res_headers reply).
Proof.
  intros Henv Hurl Hpath Hlack. split.
  - apply assertBasicAuth_rejects in Hlack.
    rewrite handler_run, Henv, Hurl, routes_lookup.
    destruct Hpath as [-> | ->]; simpl.
    + rewrite login_run, Hlack. reflexivity.
    + unfold download_history. rewrite proxyRequest_run, Hlack. reflexivity.
  - intros penv' req' w' reply. apply handler_401_challenge.
Qed.

(** ** Upstream errors *)

Lemma surfaces_ret {A} (a : A) : surfaces_api_errors (ret a).
Proof. intros w. exists []. rewrite app_nil_r. split; [reflexivity | intros ? ? []]. Qed.

Lemma surfaces_throw {A} e : surfaces_api_errors (@throw A e).
Proof. intros w. exists []. rewrite app_nil_r. split; [reflexivity | intros ? ? []]. Qed.

Lemma surfaces_lift {A} (r : error + A) : surfaces_api_errors (lift r).
Proof. intros w. exists []. rewrite app_nil_r. split; [reflexivity | intros ? ? []]. Qed.

Lemma surfaces_Date_now : surfaces_api_errors Date_now.
Proof. intros w. exists []. rewrite app_nil_r. split; [reflexivity | intros ? ? []]. Qed.

Lemma surfaces_read_cachedToken : surfaces_api_errors read_cachedToken.
Proof. intros w. exists []. rewrite app_nil_r. split; [reflexivity | intros ? ? []]. Qed.

Lemma surfaces_write_cachedToken c : surfaces_api_errors (write_cachedToken c).
Proof. intros w. exists []. rewrite app_nil_r. split; [reflexivity | intros ? ? []]. Qed.

Lemma surfaces_bind {A B} (m : M A) (k : A -> M B) :
  surfaces_api_errors m ->
  (forall a, surfaces_api_errors (k a)) ->
  surfaces_api_errors (bind m k).
Proof.
  intros Hm Hk w. destruct (Hm w) as (new1 & Hlog1 & Herr1).
  unfold bind. destruct (m w) as [[e | a] w1]; simpl in *.
  - exists new1. split; [assumption |].
    intros x r Hin Hx Hok. specialize (Herr1 x r Hin Hx Hok).
    injection Herr1 as ->. reflexivity.
  - destruct (Hk a w1) as (new2 & Hlog2 & Herr2).
    exists (new1 ++ new2). split.
    + rewrite Hlog2, Hlog1, app_assoc. reflexivity.
    + intros x r Hin Hx Hok. apply in_app_or in Hin as [Hin | Hin].
      * specialize (Herr1 x r Hin Hx Hok). discriminate.
      * eauto.
Qed.

Lemma surfaces_fetchCurasev path init :
  surfaces_api_errors (fetchCurasev path init).
Proof.
  intros w. rewrite fetchCurasev_run. cbv zeta. unfold after_fetch. simpl.
  eexists. split; [reflexivity |].
  intros x r [<- | []]. simpl. intros -> Hok. rewrite Hok. reflexivity.
Qed.

Create HintDb surfaces.

Local Hint Resolve surfaces_ret surfaces_throw surfaces_lift surfaces_Date_now
  surfaces_read_cachedToken surfaces_write_cachedToken surfaces_fetchCurasev
  : surfaces.

Ltac surfaces :=
  repeat first
    [ solve [auto with surfaces]
    | match goal with
      | |- surfaces_api_errors (if ?b then _ else _) => destruct b
      | |- surfaces_api_errors (match ?x with _ => _ end) => destruct x
      end
    | apply surfaces_bind; [| intros ?] ].

Lemma surfaces_getToken env : surfaces_api_errors (getToken env).
Proof. unfold getToken, getToken_miss. surfaces. Qed.

Local Hint Resolve surfaces_getToken : surfaces.

Lemma surfaces_login req env : surfaces_api_errors (login req env).
Proof. unfold login. surfaces. Qed.

Lemma surfaces_proxyRequest req env path :
  surfaces_api_errors (proxyRequest req env path).
Proof. unfold proxyRequest. surfaces. Qed.

(** A handler run only ever appends to the exchanges. *)
Lemma handler_appends penv req w :
  exists new, exchanges (handler penv req w).2 = exchanges w ++ new.
Proof.
  assert (Hnone : exists new : list Exchange, exchanges w = exchanges w ++ new)
    by (exists []; rewrite app_nil_r; reflexivity).
  rewrite handler_run.
  destruct (getEnv penv) as [e | env]; [exact Hnone |].
  destruct (request_URL req) as [e | url]; [exact Hnone |].
  rewrite routes_lookup.
  destruct (String.eqb _ _).
  - destruct (surfaces_login req env w) as (new & Hlog & _).
    exists new. destruct (login req env w) as [[e | reply] w']; exact Hlog.
  - destruct (String.eqb _ _); [| exact Hnone].
    destruct (surfaces_proxyRequest req env
                "/api/v1/report/get-all-download-history" w) as (new & Hlog & _).
    exists new. unfold download_history.
    destruct (proxyRequest _ _ _ _) as [[e | reply] w']; exact Hlog.
Qed.

(** C5.  A response that is not [ok] makes [fetchCurasev] throw an error
    with the upstream status and the upstream body text; and whenever one of
    the exchanges of a handler run came back with such a response, be it the
    authentication call or the forwarded one, the handler replies with that
    status and an envelope whose [details] is that body text. *)
Theorem upstream_error_relayed :
  (forall path init w r,
      (upstream (exchanges w)
                {| out_url := CURASEV_BASE_URL +:+ path; out_init := init |}
                (clock w)).1 = inr r ->
      ok r = false ->
      (fetchCurasev path init w).1 =
        inl (Error ("Curasev API error: " +:+ pretty (resp_status r))
                   (Some (resp_status r)) (Some (VStr (resp_text r)))))
  /\ (forall penv req w new x r,
         exchanges (handler penv req w).2 = exchanges w ++ new ->
         In x new ->
         ex_settled x = inr r ->
         ok r = false ->
         exists reply,
           (handler penv req w).1 = inr reply
           /\ res_status reply = resp_status r
           /\ res_body reply =
                SendJson
                  (VObj [("error",
                          VStr ("Curasev API error: " +:+ pretty (resp_status r)));
                         ("details", VStr (resp_text r))])).
Proof.
  split.
  - intros path init w r Hr Hok. rewrite fetchCurasev_run. simpl.
    rewrite Hr, Hok. reflexivity.
  - intros penv req w new x r Hlog Hin Hx Hok.
    assert (Hroute : forall (route : RouteHandler) (env : Env),
               surfaces_api_errors (route req env) ->
               exchanges (match route req env w return (error + Reply) * World with
                          | (inl e, w') => (inr (error_reply e), w')
                          | (inr reply, w') => (inr reply, w')
                          end).2 = exchanges w ++ new ->
               (route req env w).1 = inl (api_error r)).
    { intros route env Hs Hlog'. destruct (Hs w) as (new' & Hlog'' & Herr).
      assert (new' = new) as ->.
      { apply (app_inv_head (exchanges w)). rewrite <- Hlog'', <- Hlog'.
        destruct (route req env w) as [[e | reply] w']; reflexivity. }
      eauto. }
    revert Hlog. rewrite handler_run.
    destruct (getEnv penv) as [e | env]; simpl.
    { intros Hlog. rewrite <- (app_nil_r (exchanges w)) in Hlog at 1.
      apply app_inv_head in Hlog. subst new. destruct Hin. }
    destruct (request_URL req) as [e | url]; simpl.
    { intros Hlog. rewrite <- (app_nil_r (exchanges w)) in Hlog at 1.
      apply app_inv_head in Hlog. subst new. destruct Hin. }
    rewrite routes_lookup.
    destruct (String.eqb _ _).
    { intros Hlog. specialize (Hroute login env (surfaces_login req env) Hlog).
      destruct (login req env w) as [[e | reply] w']; simpl in *; [| discriminate].
      injection Hroute as ->. eexists. split; [reflexivity |]. split; reflexivity. }
    destruct (String.eqb _ _).
    { intros Hlog.
      specialize (Hroute download_history env
                    (surfaces_proxyRequest req env _) Hlog).
      destruct (download_history req env w) as [[e | reply] w']; simpl in *;
        [| discriminate].
      injection Hroute as ->. eexists. split; [reflexivity |]. split; reflexivity. }
    simpl. intros Hlog. rewrite <- (app_nil_r (exchanges w)) in Hlog at 1.
    apply app_inv_head in Hlog. subst new. destruct Hin.
Qed.


(** * Further properties of the backend *)

(** ** Configuration *)

Lemma min1_Some penv key v :
  min1 penv key = Some v <-> penv !! key = Some v /\ v <> "".
Proof.
  unfold min1. destruct (penv !! key) as [v' |]; [| split; [discriminate | intros [[=] _]]].
  destruct (String.eqb_spec v' "") as [-> | Hne].
  - split; [discriminate | intros [[= <-] Hv]; congruence].
  - split; [intros [= <-]; auto | intros [[= <-] _]; reflexivity].
Qed.

Lemma min1_None penv key :
  min1 penv key = None <-> missing_or_empty penv key.
Proof.
  unfold min1, missing_or_empty. destruct (penv !! key) as [v |].
  - destruct (String.eqb_spec v "") as [-> | Hne].
    + split; auto.
    + split; [discriminate | intros [[=] | [= ->]]; congruence].
  - split; auto.
Qed.

Lemma List_filter_sublist {A} (f : A -> bool) (l : list A) :
  sublist (List.filter f l) l.
Proof.
  induction l as [| a l IH]; simpl; [constructor |].
  destruct (f a); constructor; exact IH.
Qed.

(** X1.  [getEnv] returns a configuration exactly when each of the five
    variables is set and not empty, and the configuration then holds the
    five values as they are. *)
Theorem getEnv_ok_iff penv env :
  getEnv penv = inr env <->
  (penv !! "CURASEV_USERNAME" = Some (CURASEV_USERNAME env)
   /\ CURASEV_USERNAME env <> "")
  /\ (penv !! "CURASEV_PASSWORD" = Some (CURASEV_PASSWORD env)
      /\ CURASEV_PASSWORD env <> "")
  /\ (penv !! "CURASEV_CLIENT_KEY" = Some (CURASEV_CLIENT_KEY env)
      /\ CURASEV_CLIENT_KEY env <> "")
  /\ (penv !! "BASIC_AUTH_USER" = Some (BASIC_AUTH_USER env)
      /\ BASIC_AUTH_USER env <> "")
  /\ (penv !! "BASIC_AUTH_PASS" = Some (BASIC_AUTH_PASS env)
      /\ BASIC_AUTH_PASS env <> "").
Proof.
  rewrite <- !min1_Some. unfold getEnv, safeParse. split.
  - destruct (min1 penv "CURASEV_USERNAME") as [u |];
      destruct (min1 penv "CURASEV_PASSWORD") as [p |];
      destruct (min1 penv "CURASEV_CLIENT_KEY") as [k |];
      destruct (min1 penv "BASIC_AUTH_USER") as [bu |];
      destruct (min1 penv "BASIC_AUTH_PASS") as [bp |];
      try discriminate.
    intros [= <-]. simpl. auto.
  - intros (-> & -> & -> & -> & ->). destruct env; reflexivity.
Qed.

(** X2.  When [getEnv] throws, the error has status 500 and its details are
    the names, joined by a comma and a space, of exactly the required
    variables that are unset or empty, at least one, in the order of the
    schema. *)
Theorem getEnv_error_lists_failing_keys penv e :
  getEnv penv = inl e ->
  message e = "Missing environment variables"
  /\ Js.status e = Some 500
  /\ exists paths,
       details e = Some (VStr (join ", " paths))
       /\ paths <> []
       /\ sublist paths REQUIRED_KEYS
       /\ forall key, In key paths <->
                      In key REQUIRED_KEYS /\ missing_or_empty penv key.
Proof.
  unfold getEnv. destruct (safeParse penv) as [paths | env] eqn:Hparse;
    [| discriminate].
  intros [= <-]. split; [reflexivity |]. split; [reflexivity |].
  exists paths. split; [reflexivity |].
  assert (Hpaths : paths =
            List.filter (fun key => negb (bool_decide (is_Some (min1 penv key))))
                        REQUIRED_KEYS
          /\ exists key, In key REQUIRED_KEYS /\ min1 penv key = None).
  { unfold safeParse in Hparse.
    destruct (min1 penv "CURASEV_USERNAME") eqn:H1;
      [| injection Hparse as <-; split; [reflexivity |];
         exists "CURASEV_USERNAME"; simpl; auto].
    destruct (min1 penv "CURASEV_PASSWORD") eqn:H2;
      [| injection Hparse as <-; split; [reflexivity |];
         exists "CURASEV_PASSWORD"; simpl; auto].
    destruct (min1 penv "CURASEV_CLIENT_KEY") eqn:H3;
      [| injection Hparse as <-; split; [reflexivity |];
         exists "CURASEV_CLIENT_KEY"; simpl; auto].
    destruct (min1 penv "BASIC_AUTH_USER") eqn:H4;
      [| injection Hparse as <-; split; [reflexivity |];
         exists "BASIC_AUTH_USER"; simpl; auto 6].
    destruct (min1 penv "BASIC_AUTH_PASS") eqn:H5;
      [discriminate
      | injection Hparse as <-; split; [reflexivity |];
        exists "BASIC_AUTH_PASS"; simpl; auto 7]. }
  destruct Hpaths as [-> (bad & Hbad & Hnone)].
  assert (Hmem : forall key,
             In key (List.filter
                       (fun key => negb (bool_decide (is_Some (min1 penv key))))
                       REQUIRED_KEYS)
             <-> In key REQUIRED_KEYS /\ missing_or_empty penv key).
  { intros key. rewrite filter_In, <- min1_None.
    destruct (min1 penv key) as [v |].
    - rewrite bool_decide_eq_true_2 by eauto. simpl.
      split; [intros [_ [=]] | intros [_ [=]]].
    - rewrite bool_decide_eq_false_2 by (intros [? [=]]). simpl. tauto. }
  split; [| split; [| exact Hmem]].
  - intros Hnil. assert (Hin : In bad []); [| destruct Hin].
    rewrite <- Hnil. apply Hmem. split; [exact Hbad | apply min1_None, Hnone].
  - apply List_filter_sublist.
Qed.


(** ** The slot across runs *)

Lemma getToken_fresh env w c :
  cachedToken w = Some c ->
  clock w - fetchedAt c < TOKEN_TTL_MS ->
  getToken env w = (inr (token c), w).
Proof.
  intros Hc Hage. unfold getToken, bind, read_cachedToken, Date_now. rewrite Hc.
  destruct (Z.ltb_spec (clock w - fetchedAt c) TOKEN_TTL_MS); [reflexivity | lia].
Qed.

(** The three ways a call of [getToken] ends: a hit, a failed refresh, a
    refresh that stored a token. *)
Lemma getToken_outcome env w :
  (exists c, cachedToken w = Some c
             /\ clock w - fetchedAt c < TOKEN_TTL_MS
             /\ getToken env w = (inr (token c), w))
  \/ (stale w
      /\ ((exists e, getToken env w = (inl e, after_fetch (auth_call env) w))
          \/ (exists tok, truthy tok = true
                          /\ getToken env w = (inr tok, after_refresh env w tok)))).
Proof.
  assert (Hmiss : stale w ->
            (exists e, getToken env w = (inl e, after_fetch (auth_call env) w))
            \/ (exists tok, truthy tok = true
                            /\ getToken env w = (inr tok, after_refresh env w tok))).
  { intros Hstale. rewrite (getToken_stale _ _ Hstale), getToken_miss_run.
    destruct (upstream _ _ _).1 as [e | r]; [eauto |].
    destruct (ok r); [| eauto].
    destruct (JSON_parse _) as [e | json]; [eauto |].
    destruct (truthy (currentToken json)) eqn:Htok; [| eauto].
    right. exists (currentToken json). split; [exact Htok | reflexivity]. }
  destruct (cachedToken w) as [c |] eqn:Hc.
  - destruct (Z.lt_ge_cases (clock w - fetchedAt c) TOKEN_TTL_MS) as [Hage | Hage].
    + left. exists c. split; [reflexivity |]. split; [exact Hage |].
      apply getToken_fresh; assumption.
    + right. assert (Hstale : stale w) by (unfold stale; rewrite Hc; exact Hage).
      split; [exact Hstale | exact (Hmiss Hstale)].
  - right. assert (Hstale : stale w) by (unfold stale; rewrite Hc; exact I).
    split; [exact Hstale | exact (Hmiss Hstale)].
Qed.

(** A token that [getToken] returns is the one in the slot afterwards. *)
Lemma getToken_returns_slot env w tok w1 :
  getToken env w = (inr tok, w1) ->
  exists c, cachedToken w1 = Some c /\ token c = tok.
Proof.
  intros Hrun.
  destruct (getToken_outcome env w)
    as [(c & Hc & _ & Hhit) | (_ & [(e & Hfail) | (tok' & _ & Hnew)])].
  - rewrite Hhit in Hrun. injection Hrun as <- <-. eauto.
  - rewrite Hfail in Hrun. discriminate.
  - rewrite Hnew in Hrun. injection Hrun as <- <-.
    eexists. split; reflexivity.
Qed.

(** X3.  A call of [getToken] that returned a token leaves that token in
    the slot, younger than the TTL; from then on, at any time before the
    token is that old, [getToken] returns it again and asks nothing of the
    upstream. *)
Theorem getToken_then_fresh env w tok w1 :
  getToken env w = (inr tok, w1) ->
  exists c,
    cachedToken w1 = Some c
    /\ token c = tok
    /\ clock w1 - fetchedAt c < TOKEN_TTL_MS
    /\ forall t,
         t - fetchedAt c < TOKEN_TTL_MS ->
         getToken env {| cachedToken := cachedToken w1; clock := t;
                         exchanges := exchanges w1 |}
         = (inr tok, {| cachedToken := cachedToken w1; clock := t;
                        exchanges := exchanges w1 |}).
Proof.
  intros Hrun.
  assert (Hslot : exists c, cachedToken w1 = Some c /\ token c = tok
                            /\ clock w1 - fetchedAt c < TOKEN_TTL_MS).
  { destruct (getToken_outcome env w)
      as [(c & Hc & Hage & Hhit) | (_ & [(e & Hfail) | (tok' & _ & Hnew)])].
    - rewrite Hhit in Hrun. injection Hrun as <- <-. eauto.
    - rewrite Hfail in Hrun. discriminate.
    - rewrite Hnew in Hrun. injection Hrun as <- <-.
      eexists. split; [reflexivity |]. split; [reflexivity |].
      simpl. unfold TOKEN_TTL_MS. lia. }
  destruct Hslot as (c & Hc & <- & Hage). exists c.
  split; [exact Hc |]. split; [reflexivity |]. split; [exact Hage |].
  intros t Ht. rewrite Hc.
  apply (getToken_fresh env
           {| cachedToken := Some c; clock := t; exchanges := exchanges w1 |} c);
    [reflexivity | exact Ht].
Qed.

(** Where a run of the handler leaves the world: as it was, as [getToken]
    left it, or as the forwarded call left it after [getToken]. *)
Lemma handler_world penv req w :
  (handler penv req w).2 = w
  \/ exists env,
       getEnv penv = inr env
       /\ ((handler penv req w).2 = (getToken env w).2
           \/ exists url tok,
                request_URL req = inr url
                /\ pathname url = "/api/report/download-history"
                /\ (getToken env w).1 = inr tok
                /\ (handler penv req w).2 =
                     after_fetch
                       (forward_call req env
                          "/api/v1/report/get-all-download-history" tok
                          (search url))
                       (getToken env w).2).
Proof.
  rewrite handler_run.
  destruct (getEnv penv) as [e | env]; [left; reflexivity |].
  destruct (request_URL req) as [e | url] eqn:Hurl; [left; reflexivity |].
  rewrite routes_lookup.
  destruct (String.eqb_spec (pathname url) "/api/auth/login") as [Hlogin | _].
  - rewrite login_run.
    destruct (assertBasicAuth req env); [left; reflexivity |].
    right. exists env. split; [reflexivity |]. left.
    destruct (getToken env w) as [[e | tok] w1]; reflexivity.
  - destruct (String.eqb_spec (pathname url) "/api/report/download-history")
      as [Hhist | _]; [| left; reflexivity].
    unfold download_history. rewrite proxyRequest_run.
    destruct (assertBasicAuth req env); [left; reflexivity |].
    right. exists env. split; [reflexivity |].
    unfold buildSearch. rewrite Hurl.
    destruct (getToken env w) as [[e | tok] w1]; [left; reflexivity |].
    right. exists url, tok. cbv zeta.
    repeat (split; [reflexivity || assumption |]).
    destruct (upstream _ _ _).1 as [e | r]; [reflexivity |].
    destruct (ok r); reflexivity.
Qed.

(** What a run of the handler does to the slot: nothing, or it stores a
    truthy token stamped with a time the clock has reached. *)
Lemma handler_slot penv req w :
  (cachedToken (handler penv req w).2 = cachedToken w
   /\ (time_moves_forward -> clock w <= clock (handler penv req w).2))
  \/ exists c,
       cachedToken (handler penv req w).2 = Some c
       /\ truthy (token c) = true
       /\ (time_moves_forward -> fetchedAt c <= clock (handler penv req w).2).
Proof.
  assert (Hfetch : forall call w0,
             time_moves_forward -> clock w0 <= clock (after_fetch call w0)).
  { intros call w0 Htime. apply Htime. }
  assert (Htoken : forall env,
             (cachedToken (getToken env w).2 = cachedToken w
              /\ (time_moves_forward -> clock w <= clock (getToken env w).2))
             \/ exists c,
                  cachedToken (getToken env w).2 = Some c
                  /\ truthy (token c) = true
                  /\ fetchedAt c = clock (getToken env w).2).
  { intros env.
    destruct (getToken_outcome env w)
      as [(c & _ & _ & ->) | (_ & [(e & ->) | (tok & Htok & ->)])].
    - left. split; [reflexivity | intros _; reflexivity].
    - left. split; [reflexivity | apply Hfetch].
    - right. eexists. split; [reflexivity |]. split; [exact Htok | reflexivity]. }
  destruct (handler_world penv req w)
    as [-> | (env & _ & [-> | (url & tok & _ & _ & _ & ->)])].
  - left. split; [reflexivity | intros _; reflexivity].
  - destruct (Htoken env) as [Hsame | (c & Hc & Htok & Hat)].
    + left. exact Hsame.
    + right. exists c. split; [exact Hc |]. split; [exact Htok |].
      intros _. rewrite Hat. reflexivity.
  - destruct (Htoken env) as [[Hsame Hclock] | (c & Hc & Htok & Hat)].
    + left. split; [exact Hsame |]. intros Htime.
      etransitivity; [apply (Hclock Htime) | apply (Hfetch _ _ Htime)].
    + right. exists c. split; [exact Hc |]. split; [exact Htok |].
      intros Htime. rewrite Hat. apply (Hfetch _ _ Htime).
Qed.

(** X4.  A run of the handler never empties the slot and never puts a falsy
    token in it. *)
Theorem handler_keeps_slot penv req w :
  (is_Some (cachedToken w) -> is_Some (cachedToken (handler penv req w).2))
  /\ (slot_truthy w -> slot_truthy (handler penv req w).2).
Proof.
  destruct (handler_slot penv req w) as [[Hsame _] | (c & Hc & Htok & _)].
  - unfold slot_truthy. rewrite Hsame. split; auto.
  - split.
    + intros _. rewrite Hc. eauto.
    + intros _ c' Hc'. rewrite Hc in Hc'. injection Hc' as <-. exact Htok.
Qed.

(** X5.  On a platform whose calls never settle before they are issued, a
    slot that is not stamped in the future stays so through every run of the
    handler: the age [getToken] computes is never negative. *)
Theorem handler_keeps_slot_not_ahead penv req w :
  time_moves_forward ->
  slot_not_ahead w ->
  slot_not_ahead (handler penv req w).2.
Proof.
  intros Htime Hslot.
  destruct (handler_slot penv req w) as [[Hsame Hclock] | (c & Hc & _ & Hat)].
  - intros c Hc. rewrite Hsame in Hc.
    etransitivity; [apply (Hslot c Hc) | apply (Hclock Htime)].
  - intros c' Hc'. rewrite Hc in Hc'. injection Hc' as <-. apply (Hat Htime).
Qed.

(** X6.  Whenever the login route replies, the reply is 200 and shows the
    token and the fetch time that are in the slot after the run; the
    fallback to the present time is never taken. *)
Theorem login_reply_shows_slot req env w reply :
  (login req env w).1 = inr reply ->
  exists c,
    cachedToken (login req env w).2 = Some c
    /\ reply = {| res_status := 200;
                  res_headers := [];
                  res_body := SendJson (VObj [("token", token c);
                                              ("fetchedAt", VNum (fetchedAt c))]) |}.
Proof.
  rewrite login_run.
  destruct (assertBasicAuth req env); [discriminate |].
  destruct (getToken env w) as [[e | tok] w1] eqn:Hrun; [discriminate |].
  destruct (getToken_returns_slot _ _ _ _ Hrun) as (c & Hc & <-).
  simpl. rewrite Hc. intros [= <-]. exists c. split; reflexivity.
Qed.


(** ** What goes upstream *)

(** The exchanges a run of the handler adds: none, the authentication call,
    the forwarded call, or the one after the other. *)
Lemma handler_new_exchanges penv req w :
  exists new,
    exchanges (handler penv req w).2 = exchanges w ++ new
    /\ (new = []
        \/ exists env,
             getEnv penv = inr env
             /\ ((exists settled,
                    new = [{| ex_call := auth_call env; ex_settled := settled |}])
                 \/ exists url c settled,
                      request_URL req = inr url
                      /\ pathname url = "/api/report/download-history"
                      /\ cachedToken (handler penv req w).2 = Some c
                      /\ let call :=
                           forward_call req env
                             "/api/v1/report/get-all-download-history"
                             (token c) (search url) in
                         (new = [{| ex_call := call; ex_settled := settled |}]
                          \/ exists settled',
                               new = [{| ex_call := auth_call env;
                                         ex_settled := settled' |};
                                      {| ex_call := call;
                                         ex_settled := settled |}]))).
Proof.
  assert (Hnone : exists new : list Exchange,
             exchanges w = exchanges w ++ new /\ (new = [] \/ False)).
  { exists []. rewrite app_nil_r. auto. }
  destruct (handler_world penv req w)
    as [-> | (env & Henv & [-> | (url & tok & Hurl & Hpath & Htok & ->)])].
  - exists []. rewrite app_nil_r. auto.
  - destruct (getToken_outcome env w)
      as [(c & _ & _ & ->) | (_ & [(e & ->) | (tok & _ & ->)])]; simpl.
    + exists []. rewrite app_nil_r. auto.
    + eexists. split; [reflexivity |]. right. exists env. eauto.
    + eexists. split; [reflexivity |]. right. exists env. eauto.
  - destruct (getToken env w) as [res w1] eqn:Hrun. simpl in Htok. subst res.
    destruct (getToken_returns_slot _ _ _ _ Hrun) as (c & Hc & <-).
    destruct (getToken_outcome env w)
      as [(c' & _ & _ & Hhit) | (_ & [(e & Hfail) | (tok & _ & Hnew)])];
      rewrite Hrun in *; simplify_eq; simpl.
    + eexists. split; [reflexivity |]. right. exists env. split; [exact Henv |].
      right. exists url, c. eexists. repeat (split; [eassumption || reflexivity |]).
      left. reflexivity.
    + eexists. split; [rewrite <- app_assoc; reflexivity |].
      right. exists env. split; [exact Henv |].
      right. exists url, c. eexists. repeat (split; [eassumption || reflexivity |]).
      right. eexists. reflexivity.
Qed.

(** X7.  A run of the handler makes at most two upstream calls, and each
    goes to one of two addresses on the fixed base URL: a POST to the
    authentication endpoint, or the download-history endpoint followed by
    the [search] of the request URL, with the method of the request. *)
Theorem handler_calls_fixed_endpoints penv req w new :
  exchanges (handler penv req w).2 = exchanges w ++ new ->
  (length new <= 2)%nat
  /\ forall x, In x new ->
       (out_url (ex_call x) = CURASEV_BASE_URL +:+ AUTH_ENDPOINT
        /\ init_method (out_init (ex_call x)) = "POST")
       \/ exists url,
            request_URL req = inr url
            /\ out_url (ex_call x)
               = CURASEV_BASE_URL +:+ "/api/v1/report/get-all-download-history"
                 +:+ search url
            /\ init_method (out_init (ex_call x)) = req_method req.
Proof.
  intros Hlog.
  destruct (handler_new_exchanges penv req w) as (new' & Hlog' & Hshape).
  rewrite Hlog in Hlog'. apply app_inv_head in Hlog'. subst new'.
  destruct Hshape
    as [-> | (env & _ & [(s & ->)
                        | (url & c & s & Hurl & _ & _ & [-> | (s' & ->)])])];
    simpl; (split; [lia |]); intros x Hin; simpl in Hin;
    repeat (destruct Hin as [<- | Hin]); try destruct Hin; simpl; eauto.
Qed.

(** X8.  No header of the inbound request goes upstream: a call carries
    the JSON content type alone, or a bearer authorization made of the token
    that is in the slot after the run, the configured client key and the
    JSON content type. *)
Theorem handler_sends_own_headers penv req w new :
  exchanges (handler penv req w).2 = exchanges w ++ new ->
  forall x, In x new ->
    init_headers (out_init (ex_call x)) = [("Content-Type", "application/json")]
    \/ exists env c,
         getEnv penv = inr env
         /\ cachedToken (handler penv req w).2 = Some c
         /\ init_headers (out_init (ex_call x))
            = [("Authorization", "Bearer " +:+ interpolate (token c));
               ("clientkey", CURASEV_CLIENT_KEY env);
               ("Content-Type", "application/json")].
Proof.
  intros Hlog.
  destruct (handler_new_exchanges penv req w) as (new' & Hlog' & Hshape).
  rewrite Hlog in Hlog'. apply app_inv_head in Hlog'. subst new'.
  destruct Hshape
    as [-> | (env & Henv & [(s & ->)
                           | (url & c & s & _ & _ & Hc & [-> | (s' & ->)])])];
    intros x Hin; simpl in Hin;
    repeat (destruct Hin as [<- | Hin]); try destruct Hin; simpl;
    first [ left; reflexivity
          | right; exists env, c;
            split; [exact Henv | split; [exact Hc | reflexivity]] ].
Qed.

(** X19.  The promise of the handler is rejected in two cases only: the
    configuration is incomplete, or the request URL does not parse.  Every
    error thrown inside a route is answered with a reply. *)
Theorem handler_rejects_iff penv req w e :
  (handler penv req w).1 = inl e <->
  getEnv penv = inl e
  \/ (exists env, getEnv penv = inr env /\ request_URL req = inl e).
Proof.
  rewrite handler_run.
  destruct (getEnv penv) as [e' | env].
  - split; [intros [= ->]; auto | intros [[= ->] | (? & [=] & _)]; reflexivity].
  - destruct (request_URL req) as [e' | url].
    + split; [intros [= ->]; eauto |].
      intros [[=] | (? & _ & [= ->])]. reflexivity.
    + split; [| intros [[=] | (? & _ & [=])]].
      destruct (routes !! pathname url) as [route |]; [| discriminate].
      destruct (route req env w) as [[? | ?] ?]; discriminate.
Qed.

(** ** Errors that carry no status *)

(** X9.  On either route, past the guard and with a stale slot: when the
    authentication call is rejected, or answered with a success status and
    a body that is not JSON, the handler replies with the status of that
    error, 500 when it has none, and its message; the slot is what it was
    and nothing else is asked of the upstream. *)
Theorem handler_auth_without_json penv env req url w e :
  getEnv penv = inr env ->
  request_URL req = inr url ->
  pathname url = "/api/auth/login"
  \/ pathname url = "/api/report/download-history" ->
  assertBasicAuth req env = inr tt ->
  stale w ->
  (upstream (exchanges w) (auth_call env) (clock w)).1 = inl e
  \/ (exists r,
        (upstream (exchanges w) (auth_call env) (clock w)).1 = inr r
        /\ ok r = true
        /\ JSON_parse (resp_text r) = inl e) ->
  exists reply,
    (handler penv req w).1 = inr reply
    /\ res_status reply = default 500 (Js.status e)
    /\ res_body reply
       = SendJson (VObj [("error", VStr (message e));
                         ("details", default VUndefined (details e))])
    /\ cachedToken (handler penv req w).2 = cachedToken w
    /\ exchanges (handler penv req w).2
       = exchanges w ++
         [{| ex_call := auth_call env;
             ex_settled := (upstream (exchanges w) (auth_call env) (clock w)).1 |}].
Proof.
  intros Henv Hurl Hpath Hguard Hstale Hfail.
  assert (Htok : getToken env w = (inl e, after_fetch (auth_call env) w)).
  { rewrite (getToken_stale _ _ Hstale), getToken_miss_run.
    destruct Hfail as [-> | (r & -> & -> & ->)]; reflexivity. }
  rewrite handler_run, Henv, Hurl, routes_lookup.
  destruct Hpath as [-> | ->]; simpl.
  - rewrite login_run, Hguard, Htok. eexists. repeat split.
  - unfold download_history. rewrite proxyRequest_run, Hguard, Htok.
    eexists. repeat split.
Qed.

(** X10.  The challenge header is on 401 replies only: a reply of the
    handler that carries [WWW-Authenticate] has status 401. *)
Theorem handler_challenge_only_on_401 penv req w reply v :
  (handler penv req w).1 = inr reply ->
  In ("WWW-Authenticate", v) (res_headers reply) ->
  res_status reply = 401.
Proof.
  assert (Herr : forall e,
             In ("WWW-Authenticate", v) (res_headers (error_reply e)) ->
             res_status (error_reply e) = 401).
  { intros e. unfold error_reply. simpl.
    destruct (Z.eqb_spec (default 500 (Js.status e)) 401); [auto | intros []]. }
  rewrite handler_run.
  destruct (getEnv penv) as [e | env]; [discriminate |].
  destruct (request_URL req) as [e | url]; [discriminate |].
  rewrite routes_lookup.
  destruct (String.eqb _ _).
  - rewrite login_run.
    destruct (assertBasicAuth req env); [intros [= <-]; apply Herr |].
    destruct (getToken env w) as [[e | tok] w1]; simpl.
    + intros [= <-]. apply Herr.
    + intros [= <-] [].
  - destruct (String.eqb _ _); [| intros [= <-] []].
    unfold download_history. rewrite proxyRequest_run.
    destruct (assertBasicAuth req env); [intros [= <-]; apply Herr |].
    destruct (getToken env w) as [[e | tok] w1]; [intros [= <-]; apply Herr |].
    destruct (buildSearch req); [intros [= <-]; apply Herr |].
    cbv zeta. simpl.
    destruct (upstream _ _ _).1 as [e | r]; [intros [= <-]; apply Herr |].
    destruct (ok r); [| intros [= <-]; apply Herr].
    intros [= <-] [[=] | []].
Qed.

End Properties.

(** * The properties on sample runs *)

(** The decoder skips a character outside the alphabet, does not ask for
    padding, and reads nothing past the first [=]. *)
Example Buffer_base64_utf8_lenient :
  Node.Buffer_base64_utf8 "dXNlcjpwYXNz" = "user:pass"
  /\ Node.Buffer_base64_utf8 "dXNl*cjpw YXNz" = "user:pass"
  /\ Node.Buffer_base64_utf8 "dXNlcjpwYQ" = "user:pa"
  /\ Node.Buffer_base64_utf8 "dXNlcjpwYQ==YXNz" = "user:pa".
Proof. repeat split. Qed.

Lemma getToken_fresh_hit_witness :
  @getToken Sample.healthy Sample.env Sample.fresh_world
  = (inr (VStr "tok-0"), Sample.fresh_world)
  /\ exchanges (@getToken Sample.healthy Sample.env Sample.fresh_world).2 = []
  /\ cachedToken (@getToken Sample.healthy Sample.env Sample.fresh_world).2
     = Some {| token := VStr "tok-0"; fetchedAt := 1000 |}.
Proof.
  apply (@getToken_fresh_hit Sample.healthy Sample.env Sample.fresh_world
           {| token := VStr "tok-0"; fetchedAt := 1000 |}).
  - reflexivity.
  - reflexivity.
Defined.

Lemma getToken_stale_refresh_witness :
  stale Sample.expired_world
  /\ (@getToken Sample.healthy Sample.env Sample.expired_world).1
     = inr (VStr "tok-1")
  /\ cachedToken (@getToken Sample.healthy Sample.env Sample.expired_world).2
     = Some {| token := VStr "tok-1"; fetchedAt := 1501120 |}
  /\ exchanges (@getToken Sample.healthy Sample.env Sample.expired_world).2
     = [{| ex_call := @auth_call Sample.healthy Sample.env;
          ex_settled := inr Sample.login_ok |}].
Proof.
  assert (Hstale : stale Sample.expired_world) by (vm_compute; discriminate).
  split; [exact Hstale |].
  destruct (@getToken_stale_refresh Sample.healthy Sample.env
              Sample.expired_world Hstale) as [Hlog Hsuccess].
  destruct (Hsuccess Sample.login_ok Sample.token_body
              eq_refl eq_refl eq_refl eq_refl) as (Hret & Hslot & Hclock).
  split; [exact Hret |]. split; [| exact Hlog].
  rewrite Hslot, Hclock. reflexivity.
Defined.

Lemma getToken_missing_token_witness :
  stale Sample.empty_world
  /\ ((@getToken Sample.tokenless Sample.env Sample.empty_world).1
      = inl (Error "Curasev authentication failed: missing token" (Some 502)
                   (Some Sample.no_token_body))
      /\ cachedToken (@getToken Sample.tokenless Sample.env Sample.empty_world).2
         = None)
  /\ ((@getToken Sample.garbled Sample.env Sample.empty_world).1
      = inl (Error "Unexpected token in JSON" None None)
      /\ cachedToken (@getToken Sample.garbled Sample.env Sample.empty_world).2
         = None).
Proof.
  assert (Hstale : stale Sample.empty_world) by exact I.
  split; [exact Hstale |]. split.
  - apply (proj1 (@getToken_missing_token Sample.tokenless Sample.env
                    Sample.empty_world Sample.login_no_token
                    Hstale eq_refl eq_refl) Sample.no_token_body);
      reflexivity.
  - apply (proj2 (@getToken_missing_token Sample.garbled Sample.env
                    Sample.empty_world Sample.login_html
                    Hstale eq_refl eq_refl)
             (Error "Unexpected token in JSON" None None)).
    reflexivity.
Defined.

(** The claim of C3 fails on a success status whose body is not JSON: there
    is no token in it, the error thrown is the one of [response.json()], with
    no status and no details, and the login route answers 500. *)
Lemma non_json_login_is_not_502 :
  ok Sample.login_html = true
  /\ @JSON_parse Sample.garbled (resp_text Sample.login_html)
     = inl (Error "Unexpected token in JSON" None None)
  /\ (@getToken Sample.garbled Sample.env Sample.empty_world).1
     = inl (Error "Unexpected token in JSON" None None)
  /\ (@handler Sample.garbled Sample.penv
        (Sample.request "/api/auth/login" Sample.basic_ok "GET" VUndefined)
        Sample.empty_world).1
     = inr {| res_status := 500;
              res_headers := [];
              res_body := SendJson (VObj [("error", VStr "Unexpected token in JSON");
                                          ("details", VUndefined)]) |}.
Proof. repeat split; vm_compute; reflexivity. Qed.

Lemma assertBasicAuth_colon_split_witness :
  @assertBasicAuth Sample.healthy
    (Sample.request "/api/auth/login" Sample.basic_extra "GET" VUndefined)
    Sample.env = inr tt
  /\ @assertBasicAuth Sample.healthy
       (Sample.request "/api/auth/login" "Basic dXNlcjpwYTpzcw==" "GET" VUndefined)
       Sample.env_colon = inl unauthorized.
Proof.
  split.
  - apply (proj1 (@assertBasicAuth_colon_split Sample.healthy Sample.env
                    (Sample.request "/api/auth/login" Sample.basic_extra "GET"
                                    VUndefined))
             Sample.basic_extra "extra");
      reflexivity.
  - apply (proj2 (@assertBasicAuth_colon_split Sample.healthy Sample.env_colon
                    (Sample.request "/api/auth/login" "Basic dXNlcjpwYTpzcw=="
                                    "GET" VUndefined))).
    reflexivity.
Defined.

Lemma getForwardBody_cases_witness :
  @getForwardBody Sample.healthy
    (Sample.request "/api/report/download-history" Sample.basic_ok "GET"
                    (VStr "ignored")) = None
  /\ @getForwardBody Sample.healthy
       (Sample.request "/api/report/download-history" Sample.basic_ok "POST"
                       (VStr "raw text")) = Some "raw text"
  /\ @getForwardBody Sample.healthy
       (Sample.request "/api/report/download-history" Sample.basic_ok "POST"
                       VUndefined) = None
  /\ @getForwardBody Sample.healthy
       (Sample.request "/api/report/download-history" Sample.basic_ok "POST"
                       (VObj [("dayDiff", VNum 60)]))
     = Some (Node.print (VObj [("dayDiff", VNum 60)])).
Proof.
  split; [| split; [| split]].
  - apply (proj1 (@getForwardBody_cases Sample.healthy
                    (Sample.request "/api/report/download-history"
                                    Sample.basic_ok "GET" (VStr "ignored")))).
    left. reflexivity.
  - assert (Hpost : "POST" <> "GET" /\ "POST" <> "HEAD") by (split; discriminate).
    destruct (proj2 (@getForwardBody_cases Sample.healthy
                       (Sample.request "/api/report/download-history"
                                       Sample.basic_ok "POST" (VStr "raw text")))
                (proj1 Hpost) (proj2 Hpost)) as (Hraw & _ & _).
    apply Hraw. reflexivity.
  - assert (Hpost : "POST" <> "GET" /\ "POST" <> "HEAD") by (split; discriminate).
    destruct (proj2 (@getForwardBody_cases Sample.healthy
                       (Sample.request "/api/report/download-history"
                                       Sample.basic_ok "POST" VUndefined))
                (proj1 Hpost) (proj2 Hpost)) as (_ & Habsent & _).
    apply Habsent. left. reflexivity.
  - assert (Hpost : "POST" <> "GET" /\ "POST" <> "HEAD") by (split; discriminate).
    destruct (proj2 (@getForwardBody_cases Sample.healthy
                       (Sample.request "/api/report/download-history"
                                       Sample.basic_ok "POST"
                                       (VObj [("dayDiff", VNum 60)])))
                (proj1 Hpost) (proj2 Hpost)) as (_ & _ & Hstructured).
    apply Hstructured. right. eexists. reflexivity.
Defined.


Lemma handler_unauthorized_401_witness :
  lacks_credentials (P := Sample.healthy) Sample.env (Some Sample.basic_wrong)
  /\ @handler Sample.healthy Sample.penv
       (Sample.request "/api/report/download-history?dayDiff=30"
                       Sample.basic_wrong "POST" (VStr "anything"))
       Sample.empty_world
     = (inr {| res_status := 401;
               res_headers :=
                 [("WWW-Authenticate",
                   "Basic realm=" +:+ dquote +:+ "Reporting" +:+ dquote)];
               res_body := SendJson (VObj [("error", VStr "Unauthorized");
                                           ("details", VUndefined)]) |},
        Sample.empty_world).
Proof.
  assert (Hlack : lacks_credentials (P := Sample.healthy) Sample.env
                    (Some Sample.basic_wrong)).
  { apply wrong_pair. vm_compute. discriminate. }
  split; [exact Hlack |].
  apply (@handler_unauthorized_401 Sample.healthy Sample.penv Sample.env
           (Sample.request "/api/report/download-history?dayDiff=30"
                           Sample.basic_wrong "POST" (VStr "anything"))
           {| pathname := "/api/report/download-history";
              search := "?dayDiff=30" |} Sample.empty_world).
  - vm_compute. reflexivity.
  - reflexivity.
  - right. reflexivity.
  - exact Hlack.
Defined.

(** The claim of C4 fails where the encoding is malformed and the lenient
    decoder still reads the configured pair out of it: a space inside the
    payload is skipped, and the login is answered 200. *)
Lemma malformed_base64_accepted :
  Node.well_formed_base64 (slice 6 Sample.basic_spaced) = false
  /\ (@handler Sample.healthy Sample.penv
        (Sample.request "/api/auth/login" Sample.basic_spaced "GET" VUndefined)
        Sample.fresh_world).1
     = inr {| res_status := 200;
              res_headers := [];
              res_body := SendJson (VObj [("token", VStr "tok-0");
                                          ("fetchedAt", VNum 1000)]) |}.
Proof. split; vm_compute; reflexivity. Qed.




Lemma upstream_error_relayed_witness :
  (@fetchCurasev Sample.down "/api/v1/report/get-all-download-history"
     {| init_method := "GET"; init_headers := []; init_body := None |}
     Sample.empty_world).1
  = inl (Error "Curasev API error: 503" (Some 503) (Some (VStr "maintenance")))
  /\ exists reply,
       (@handler Sample.down Sample.penv
          (Sample.request "/api/report/download-history?dayDiff=60"
                          Sample.basic_ok "GET" VUndefined)
          Sample.empty_world).1 = inr reply
       /\ res_status reply = 503
       /\ res_body reply
          = SendJson (VObj [("error", VStr "Curasev API error: 503");
                            ("details", VStr "maintenance")]).
Proof.
  destruct (@upstream_error_relayed Sample.down) as [Hsignal Hreply].
  split.
  - apply (Hsignal "/api/v1/report/get-all-download-history"
             {| init_method := "GET"; init_headers := []; init_body := None |}
             Sample.empty_world Sample.maintenance);
      reflexivity.
  - apply (Hreply Sample.penv
             (Sample.request "/api/report/download-history?dayDiff=60"
                             Sample.basic_ok "GET" VUndefined)
             Sample.empty_world
             (exchanges
                (@handler Sample.down Sample.penv
                   (Sample.request "/api/report/download-history?dayDiff=60"
                                   Sample.basic_ok "GET" VUndefined)
                   Sample.empty_world).2)
             {| ex_call :=
                  @forward_call Sample.down
                    (Sample.request "/api/report/download-history?dayDiff=60"
                                    Sample.basic_ok "GET" VUndefined)
                    Sample.env "/api/v1/report/get-all-download-history"
                    (VStr "tok-1") "?dayDiff=60";
                ex_settled := inr Sample.maintenance |}
             Sample.maintenance).
    + reflexivity.
    + vm_compute. right. left. reflexivity.
    + reflexivity.
    + reflexivity.
Defined.

(** * Properties of the browser side *)

Lemma split_clean sep s : occurs sep s = false -> split sep s = [s].
Proof.
  induction s as [| c s IH]; simpl; [reflexivity |].
  intros H. apply orb_false_iff in H as [Hc Hs].
  rewrite Hc, (IH Hs). reflexivity.
Qed.

(** Cutting after a separator cuts the two sides apart. *)
Lemma split_app_sep sep a t :
  split sep (a +:+ String sep t) = split sep a ++ split sep t.
Proof.
  induction a as [| c a IH]; simpl.
  - rewrite Ascii.eqb_refl. reflexivity.
  - destruct (Ascii.eqb c sep); [rewrite IH; reflexivity |].
    rewrite IH. destruct (split_cons sep a) as (seg & segs & ->). reflexivity.
Qed.

Lemma pretty_N_go_no_dash x s :
  occurs "-" s = false -> occurs "-" (pretty_N_go x s) = false.
Proof.
  revert s. induction (N.lt_wf_0 x) as [x _ IH]; intros s Hs.
  assert (x = 0 \/ 0 < x)%N as [-> | Hpos] by lia.
  - rewrite pretty_N_go_0. exact Hs.
  - rewrite pretty_N_go_step by exact Hpos. apply IH.
    + apply N.div_lt; [exact Hpos | reflexivity].
    + simpl. rewrite Hs. unfold pretty_N_char.
      repeat case_match; reflexivity.
Qed.

Lemma pretty_nat_no_dash (n : nat) : occurs "-" (pretty n) = false.
Proof.
  unfold pretty, pretty_nat, pretty, pretty_N.
  case_decide; [reflexivity | apply pretty_N_go_no_dash; reflexivity].
Qed.

Section BrowserProperties.
Context {B : Browser}.

(** The index of a row can be read back from its key. *)
Lemma table_row_key_index record index :
  last (split "-" (table_row_key record index)) = Some (pretty index).
Proof.
  unfold table_row_key.
  change ("-" +:+ pretty index) with (String "-" (pretty index)).
  rewrite split_app_sep, (split_clean _ _ (pretty_nat_no_dash index)).
  apply last_snoc.
Qed.

(** X11.  The header [signIn] sends, met with the backend's guard: when
    the backend decodes the encoded credentials back and the user name holds
    no colon, the guard accepts exactly when the user name is the configured
    one and the password, up to its first colon, is the configured
    password. *)
Theorem signIn_header_at_guard {P : Platform} env req username password :
  req_authorization req
  = Some ("Basic " +:+ Base64_encode (username +:+ ":" +:+ password)) ->
  base64_utf8 (Base64_encode (username +:+ ":" +:+ password))
  = username +:+ ":" +:+ password ->
  occurs colon username = false ->
  assertBasicAuth req env = inr tt <->
  username = BASIC_AUTH_USER env
  /\ exists rest, split colon password = BASIC_AUTH_PASS env :: rest.
Proof.
  intros Hheader Hdecode Hclean.
  rewrite assertBasicAuth_accepts. rewrite Hheader.
  assert (Hsplit : split colon (username +:+ ":" +:+ password)
                   = username :: split colon password).
  { change (":" +:+ password) with (String colon password).
    apply split_first, Hclean. }
  assert (Hslice : forall x, slice 6 ("Basic " +:+ x) = x) by reflexivity.
  assert (Hprefix : forall x, String.prefix "Basic " ("Basic " +:+ x) = true)
    by (intros [| a x]; reflexivity).
  split.
  - intros (header & rest & [= <-] & _ & Hs).
    rewrite Hslice, Hdecode, Hsplit in Hs.
    injection Hs as -> Hs. eauto.
  - intros [-> (rest & Hs)]. eexists _, rest.
    split; [reflexivity |]. split; [apply Hprefix |].
    rewrite Hslice, Hdecode, Hsplit, Hs. reflexivity.
Qed.

(** X12.  After a [signIn] that succeeded the context is authenticated, and
    the authorization header it hands to the pages is the very header the
    sign-in was made with. *)
Theorem signIn_then_context username password c c' :
  signIn username password c = (inr tt, c') ->
  isAuthenticated (context_value (state c')) = true
  /\ authorizationHeader (context_value (state c'))
     = Some ("Basic " +:+ Base64_encode (username +:+ ":" +:+ password))
  /\ sessionToken (context_value (state c')) = get "sessionToken" (state c').
Proof.
  unfold signIn.
  destruct (window_fetch _) as [e | r]; [discriminate |].
  destruct (negb (ok r)); [discriminate |].
  destruct (browser_parse _) as [e | payload]; [discriminate |].
  destruct (property "token" payload) as [e | tok]; [discriminate |].
  intros [= <-]. simpl. auto.
Qed.

(** X13.  A [signIn] that succeeded in a browser with storage writes the
    new state under the storage key and touches no other key; when the
    stored text is not empty and parses back to the state, loading the
    initial state again gives that state. *)
Theorem signIn_persists username password c c' items :
  signIn username password c = (inr tt, c') ->
  localStorage c = Some items ->
  exists items',
    localStorage c' = Some items'
    /\ items' !! STORAGE_KEY = Some (browser_stringify (state c'))
    /\ (forall k, k <> STORAGE_KEY -> items' !! k = items !! k)
    /\ (browser_stringify (state c') <> "" ->
        browser_parse (browser_stringify (state c')) = inr (state c') ->
        loadInitialState (localStorage c') = state c').
Proof.
  unfold signIn. intros Hrun Hitems. rewrite Hitems in Hrun.
  destruct (window_fetch _) as [e | r]; [discriminate |].
  destruct (negb (ok r)); [discriminate |].
  destruct (browser_parse (resp_text r)) as [e | payload]; [discriminate |].
  destruct (property "token" payload) as [e | tok]; [discriminate |].
  injection Hrun as <-. simpl. eexists. split; [reflexivity |].
  split; [apply lookup_insert_eq |].
  split; [intros k Hk; apply lookup_insert_ne; congruence |].
  intros Hnonempty Hparse. rewrite lookup_insert_eq.
  apply String.eqb_neq in Hnonempty. rewrite Hnonempty, Hparse. reflexivity.
Qed.

(** X14.  A [signIn] that throws, for whatever reason, leaves the React
    state and the storage as they were. *)
Theorem signIn_failure_keeps_client username password c e :
  (signIn username password c).1 = inl e ->
  (signIn username password c).2 = c.
Proof.
  unfold signIn.
  destruct (window_fetch _) as [e' | r]; [reflexivity |].
  destruct (negb (ok r)); [reflexivity |].
  destruct (browser_parse _) as [e' | payload]; [reflexivity |].
  destruct (property "token" payload) as [e' | tok]; [reflexivity |].
  discriminate.
Qed.

(** X15.  After [signOut] nothing is left to load, the private route sends
    to the login page, and every other key of the storage is as it was. *)
Theorem signOut_forgets c :
  loadInitialState (localStorage (signOut c)) = VUndefined
  /\ PrivateRoute (context_value (state (signOut c))) = Navigate "/login"
  /\ forall items k,
       localStorage c = Some items -> k <> STORAGE_KEY ->
       exists items', localStorage (signOut c) = Some items'
                      /\ items' !! k = items !! k.
Proof.
  unfold signOut, loadInitialState. simpl.
  split; [| split; [reflexivity |]].
  - destruct (localStorage c) as [items |]; [| reflexivity].
    rewrite lookup_delete_eq. reflexivity.
  - intros items k -> Hk. eexists. split; [reflexivity |].
    apply lookup_delete_ne. congruence.
Qed.


(** X17.  The download-history query is enabled exactly when the context is
    authenticated, which is exactly when the private route shows its
    children. *)
Theorem query_enabled_iff_authenticated st :
  query_enabled (authorizationHeader (context_value st))
  = isAuthenticated (context_value st)
  /\ (PrivateRoute (context_value st) = Children
      <-> isAuthenticated (context_value st) = true).
Proof.
  unfold context_value, PrivateRoute.
  destruct (truthy st); simpl; (split; [reflexivity |]);
    split; first [reflexivity | discriminate].
Qed.

(** X18.  When the page shows the table there is one row for each record,
    in their order, at least one, and no two rows have the same React
    key. *)
Theorem DownloadHistoryPage_table isLoading failure data rows :
  DownloadHistoryPage isLoading failure data = Table rows ->
  rows = imap table_row (records data)
  /\ rows <> []
  /\ length rows = length (records data)
  /\ NoDup (row_key <$> rows).
Proof.
  unfold DownloadHistoryPage.
  destruct isLoading; [discriminate |].
  destruct failure; [discriminate |].
  destruct (records data) as [| r rs] eqn:Hrecords; [discriminate |].
  intros Hrows.
  assert (rows = imap table_row (r :: rs)) as -> by congruence. clear Hrows.
  split; [reflexivity |]. split; [discriminate |].
  split; [apply length_imap |].
  apply NoDup_alt. intros i j key Hi Hj.
  rewrite list_lookup_fmap, list_lookup_imap in Hi, Hj.
  destruct ((r :: rs) !! i) as [ri |]; [| discriminate].
  destruct ((r :: rs) !! j) as [rj |]; [| discriminate].
  simpl in Hi, Hj. injection Hi as <-. injection Hj as Hkey.
  assert (Hindex : Some (pretty j) = Some (pretty i)).
  { rewrite <- (table_row_key_index rj j), <- (table_row_key_index ri i), Hkey.
    reflexivity. }
  injection Hindex as Hindex. symmetry. apply (inj pretty). exact Hindex.
Qed.

End BrowserProperties.

(** * The further properties on sample runs *)

Lemma getEnv_ok_iff_witness : getEnv Sample.penv = inr Sample.env.
Proof.
  apply (proj2 (getEnv_ok_iff Sample.penv Sample.env)).
  repeat split; (reflexivity || discriminate).
Defined.

Lemma getEnv_error_lists_failing_keys_witness :
  exists paths,
    Some (VStr "BASIC_AUTH_PASS") = Some (VStr (join ", " paths))
    /\ paths <> []
    /\ sublist paths REQUIRED_KEYS
    /\ forall key, In key paths <->
                   In key REQUIRED_KEYS
                   /\ missing_or_empty Sample.penv_incomplete key.
Proof.
  apply (getEnv_error_lists_failing_keys Sample.penv_incomplete
           (Error "Missing environment variables" (Some 500)
                  (Some (VStr "BASIC_AUTH_PASS")))).
  vm_compute. reflexivity.
Defined.

Lemma getToken_then_fresh_witness :
  exists c,
    cachedToken (@getToken Sample.healthy Sample.env Sample.expired_world).2
    = Some c
    /\ token c = VStr "tok-1"
    /\ clock (@getToken Sample.healthy Sample.env Sample.expired_world).2
       - fetchedAt c < TOKEN_TTL_MS
    /\ forall t,
         t - fetchedAt c < TOKEN_TTL_MS ->
         @getToken Sample.healthy Sample.env
           {| cachedToken :=
                cachedToken
                  (@getToken Sample.healthy Sample.env Sample.expired_world).2;
              clock := t;
              exchanges :=
                exchanges
                  (@getToken Sample.healthy Sample.env Sample.expired_world).2 |}
         = (inr (VStr "tok-1"),
            {| cachedToken :=
                 cachedToken
                   (@getToken Sample.healthy Sample.env Sample.expired_world).2;
               clock := t;
               exchanges :=
                 exchanges
                   (@getToken Sample.healthy Sample.env Sample.expired_world).2 |}).
Proof.
  apply (@getToken_then_fresh Sample.healthy Sample.env Sample.expired_world).
  reflexivity.
Defined.

Lemma handler_keeps_slot_witness :
  is_Some (cachedToken
             (@handler Sample.tokenless Sample.penv
                (Sample.request "/api/auth/login" Sample.basic_ok "GET" VUndefined)
                Sample.expired_world).2)
  /\ slot_truthy
       (@handler Sample.healthy Sample.penv
          (Sample.request "/api/auth/login" Sample.basic_ok "GET" VUndefined)
          Sample.empty_world).2.
Proof.
  split.
  - apply (proj1 (@handler_keeps_slot Sample.tokenless Sample.penv
                    (Sample.request "/api/auth/login" Sample.basic_ok "GET"
                                    VUndefined) Sample.expired_world)).
    eexists. reflexivity.
  - apply (proj2 (@handler_keeps_slot Sample.healthy Sample.penv
                    (Sample.request "/api/auth/login" Sample.basic_ok "GET"
                                    VUndefined) Sample.empty_world)).
    intros c Hc. discriminate Hc.
Defined.

Lemma handler_keeps_slot_not_ahead_witness :
  @time_moves_forward Sample.healthy
  /\ slot_not_ahead Sample.expired_world
  /\ slot_not_ahead
       (@handler Sample.healthy Sample.penv
          (Sample.request "/api/report/download-history?dayDiff=60"
                          Sample.basic_ok "GET" VUndefined)
          Sample.expired_world).2.
Proof.
  assert (Htime : @time_moves_forward Sample.healthy).
  { intros log call t. simpl. lia. }
  assert (Hslot : slot_not_ahead Sample.expired_world).
  { intros c [= <-]. simpl. lia. }
  split; [exact Htime |]. split; [exact Hslot |].
  apply (@handler_keeps_slot_not_ahead Sample.healthy); assumption.
Defined.

Lemma login_reply_shows_slot_witness :
  exists c,
    cachedToken
      (@login Sample.healthy
         (Sample.request "/api/auth/login" Sample.basic_ok "GET" VUndefined)
         Sample.env Sample.expired_world).2 = Some c
    /\ {| res_status := 200;
          res_headers := [];
          res_body := SendJson (VObj [("token", VStr "tok-1");
                                      ("fetchedAt", VNum 1501120)]) |}
       = {| res_status := 200;
            res_headers := [];
            res_body := SendJson (VObj [("token", token c);
                                        ("fetchedAt", VNum (fetchedAt c))]) |}.
Proof.
  apply (@login_reply_shows_slot Sample.healthy
           (Sample.request "/api/auth/login" Sample.basic_ok "GET" VUndefined)
           Sample.env Sample.expired_world).
  reflexivity.
Defined.

Lemma handler_calls_fixed_endpoints_witness :
  (length
     (exchanges
        (@handler Sample.healthy Sample.penv
           (Sample.request "/api/report/download-history?dayDiff=60"
                           Sample.basic_ok "GET" VUndefined)
           Sample.empty_world).2) <= 2)%nat.
Proof.
  apply (@handler_calls_fixed_endpoints Sample.healthy Sample.penv
           (Sample.request "/api/report/download-history?dayDiff=60"
                           Sample.basic_ok "GET" VUndefined)
           Sample.empty_world).
  reflexivity.
Defined.

Lemma handler_sends_own_headers_witness :
  [("Authorization", "Bearer tok-1"); ("clientkey", "client-7");
   ("Content-Type", "application/json")]
  = [("Content-Type", "application/json")]
  \/ exists env c,
       getEnv Sample.penv = inr env
       /\ cachedToken
            (@handler Sample.healthy Sample.penv
               (Sample.request "/api/report/download-history?dayDiff=60"
                               Sample.basic_ok "GET" VUndefined)
               Sample.empty_world).2 = Some c
       /\ [("Authorization", "Bearer tok-1"); ("clientkey", "client-7");
           ("Content-Type", "application/json")]
          = [("Authorization",
              "Bearer " +:+ @interpolate Sample.healthy (token c));
             ("clientkey", CURASEV_CLIENT_KEY env);
             ("Content-Type", "application/json")].
Proof.
  apply (@handler_sends_own_headers Sample.healthy Sample.penv
           (Sample.request "/api/report/download-history?dayDiff=60"
                           Sample.basic_ok "GET" VUndefined)
           Sample.empty_world
           (exchanges
              (@handler Sample.healthy Sample.penv
                 (Sample.request "/api/report/download-history?dayDiff=60"
                                 Sample.basic_ok "GET" VUndefined)
                 Sample.empty_world).2)
           eq_refl
           {| ex_call :=
                @forward_call Sample.healthy
                  (Sample.request "/api/report/download-history?dayDiff=60"
                                  Sample.basic_ok "GET" VUndefined)
                  Sample.env "/api/v1/report/get-all-download-history"
                  (VStr "tok-1") "?dayDiff=60";
              ex_settled := inr Sample.history_ok |}).
  vm_compute. right. left. reflexivity.
Defined.

Lemma handler_auth_without_json_witness :
  exists reply,
    (@handler Sample.garbled Sample.penv
       (Sample.request "/api/auth/login" Sample.basic_ok "GET" VUndefined)
       Sample.empty_world).1 = inr reply
    /\ res_status reply = 500
    /\ res_body reply
       = SendJson (VObj [("error", VStr "Unexpected token in JSON");
                         ("details", VUndefined)])
    /\ cachedToken
         (@handler Sample.garbled Sample.penv
            (Sample.request "/api/auth/login" Sample.basic_ok "GET" VUndefined)
            Sample.empty_world).2 = None
    /\ exchanges
         (@handler Sample.garbled Sample.penv
            (Sample.request "/api/auth/login" Sample.basic_ok "GET" VUndefined)
            Sample.empty_world).2
       = [{| ex_call := @auth_call Sample.garbled Sample.env;
             ex_settled := inr Sample.login_html |}].
Proof.
  apply (@handler_auth_without_json Sample.garbled Sample.penv Sample.env
           (Sample.request "/api/auth/login" Sample.basic_ok "GET" VUndefined)
           {| pathname := "/api/auth/login"; search := "" |}
           Sample.empty_world
           (Error "Unexpected token in JSON" None None)).
  - vm_compute. reflexivity.
  - reflexivity.
  - left. reflexivity.
  - reflexivity.
  - exact I.
  - right. exists Sample.login_html. repeat split.
Defined.

Lemma handler_challenge_only_on_401_witness :
  res_status
    (error_reply (Error "Unauthorized" (Some 401) None)) = 401.
Proof.
  apply (@handler_challenge_only_on_401 Sample.healthy Sample.penv
           (Sample.request "/api/auth/login" Sample.basic_wrong "GET" VUndefined)
           Sample.empty_world
           (error_reply (Error "Unauthorized" (Some 401) None))
           challenge).
  - vm_compute. reflexivity.
  - left. reflexivity.
Defined.

Lemma signIn_header_at_guard_witness :
  @assertBasicAuth Sample.healthy
    (Sample.request "/api/auth/login" ("Basic " +:+ Web.encode "user:pass:x")
                    "POST" VUndefined)
    Sample.env = inr tt.
Proof.
  apply (proj2 (@signIn_header_at_guard ClientSample.accepted Sample.healthy
                  Sample.env
                  (Sample.request "/api/auth/login"
                                  ("Basic " +:+ Web.encode "user:pass:x")
                                  "POST" VUndefined)
                  "user" "pass:x" eq_refl eq_refl eq_refl)).
  split; [reflexivity |]. exists ["x"]. reflexivity.
Defined.

Lemma signIn_then_context_witness :
  isAuthenticated
    (@context_value ClientSample.accepted (state ClientSample.signed_in_client))
  = true
  /\ authorizationHeader
       (@context_value ClientSample.accepted (state ClientSample.signed_in_client))
     = Some "Basic dXNlcjpwYXNz"
  /\ sessionToken
       (@context_value ClientSample.accepted (state ClientSample.signed_in_client))
     = VStr "tok-1".
Proof.
  apply (@signIn_then_context ClientSample.accepted "user" "pass"
           ClientSample.fresh_client ClientSample.signed_in_client).
  vm_compute. reflexivity.
Defined.

Lemma signIn_persists_witness :
  @loadInitialState ClientSample.accepted
     (localStorage ClientSample.signed_in_client)
  = ClientSample.signed_in.
Proof.
  destruct (@signIn_persists ClientSample.accepted "user" "pass"
              ClientSample.fresh_client ClientSample.signed_in_client
              {[ "theme" := "dark" ]})
    as (items' & _ & _ & _ & Hreload).
  - vm_compute. reflexivity.
  - reflexivity.
  - apply Hreload; [discriminate | reflexivity].
Defined.

Lemma signIn_failure_keeps_client_witness :
  (@signIn ClientSample.refused "user" "wrong" ClientSample.fresh_client).2
  = ClientSample.fresh_client.
Proof.
  apply (@signIn_failure_keeps_client ClientSample.refused "user" "wrong"
           ClientSample.fresh_client
           (Error "Invalid credentials or API unreachable" None None)).
  reflexivity.
Defined.

Lemma signOut_forgets_witness :
  exists items',
    localStorage (signOut ClientSample.signed_in_client) = Some items'
    /\ items' !! "theme" = Some "dark".
Proof.
  destruct (@signOut_forgets ClientSample.accepted ClientSample.signed_in_client)
    as (_ & _ & Hother).
  destruct (Hother (<[STORAGE_KEY := Node.print ClientSample.signed_in]>
                      {[ "theme" := "dark" ]}) "theme" eq_refl)
    as (items' & Hitems & Hlookup); [discriminate |].
  exists items'. split; [exact Hitems |]. rewrite Hlookup. reflexivity.
Defined.


Lemma DownloadHistoryPage_table_witness :
  NoDup
    (row_key <$>
     imap (@table_row ClientSample.accepted) ClientSample.history).
Proof.
  apply (@DownloadHistoryPage_table ClientSample.accepted false None
           (Some {| dh_code := "OK"; dh_status := "success";
                    dh_message := None;
                    dh_data := Some ClientSample.history |})
           (imap (@table_row ClientSample.accepted) ClientSample.history)).
  reflexivity.
Defined.

Lemma handler_rejects_iff_witness :
  (@handler Sample.healthy Sample.penv_incomplete
     (Sample.request "/api/foo" Sample.basic_ok "GET" VUndefined)
     Sample.empty_world).1
  = inl (Error "Missing environment variables" (Some 500)
               (Some (VStr "BASIC_AUTH_PASS"))).
Proof.
  apply (proj2 (@handler_rejects_iff Sample.healthy Sample.penv_incomplete
                  (Sample.request "/api/foo" Sample.basic_ok "GET" VUndefined)
                  Sample.empty_world _)).
  left. vm_compute. reflexivity.
Defined.
